(** * lab_6_pipeline/pipeline.py: corpus validation, CONLL-U tokens and
      sentences, and the basic morphological pipeline.

    A shallow embedding of [src/lab_6_pipeline/pipeline.py].  Python [str]
    values are sequences of Unicode code points, Python [int]s are [Z],
    exceptions are an error monad, and a method that could touch its
    object returns the object next to its result. *)

From Stdlib Require Import ZArith List Lia Bool.

From stdpp Require Import base option list strings sorting gmap.

Open Scope Z_scope.

(** ** Python values *)

(** A Python [str]: the sequence of its code points. *)
Abbreviation codepoint := N (only parsing).
Abbreviation pystr := (list N) (only parsing).

(** The exceptions the module can raise, its own two and the built-in ones
    its expressions raise. *)
Inductive exn : Set :=
| FileNotFoundError
| NotADirectoryError
| InconsistentDatasetError
| EmptyDirectoryError
| IndexError
| ValueError.

Inductive result (A : Type) : Type :=
| Ok (a : A)
| Raise (e : exn).
Arguments Ok {A} a.
Arguments Raise {A} e.

#[global] Instance result_ret : MRet result := fun _ a => Ok a.
#[global] Instance result_bind : MBind result := fun _ _ f m =>
  match m with
  | Ok a => f a
  | Raise e => Raise e
  end.

(** [[f(x) for x in xs]] where [f] may raise: the first exception wins. *)
Fixpoint comprehension {A B} (f : A -> result B) (xs : list A) : result (list B) :=
  match xs with
  | [] => Ok []
  | x :: rest => y ← f x; ys ← comprehension f rest; mret (y :: ys)
  end.

Module Py.

(** [s[-1]] *)
Definition index_last {A} (s : list A) : result A :=
  match last s with
  | Some x => Ok x
  | None => Raise IndexError
  end.

(** [s[0]] *)
Definition index_first {A} (s : list A) : result A :=
  match s with
  | x :: _ => Ok x
  | [] => Raise IndexError
  end.

(** [s[::2]] *)
Fixpoint slice_step2 {A} (s : list A) : list A :=
  match s with
  | [] => []
  | x :: rest =>
      x :: match rest with
           | [] => []
           | _ :: rest' => slice_step2 rest'
           end
  end.

(** [list(range(lo, hi))] *)
Definition range (lo hi : Z) : list Z := seqZ lo (hi - lo).

(** [sorted(xs)] on integers. *)
Fixpoint insert_sorted (x : Z) (xs : list Z) : list Z :=
  match xs with
  | [] => [x]
  | y :: rest => if x <=? y then x :: xs else y :: insert_sorted x rest
  end.

Definition sorted (xs : list Z) : list Z := foldr insert_sorted [] xs.

(** [s.split(sep)] for a one-character separator: never an empty list. *)
Fixpoint split_on (sep : codepoint) (s : pystr) : list pystr :=
  match s with
  | [] => [[]]
  | c :: rest =>
      if N.eqb c sep then [] :: split_on sep rest
      else match split_on sep rest with
           | piece :: pieces => (c :: piece) :: pieces
           | [] => [[c]]
           end
  end.

(** [int(c)] for a one-character string [c].  ASCII digits are modelled;
    any other character raises [ValueError] (the decimal digits of other
    scripts, which Python also accepts, do not occur in the file names of
    a corpus). *)
Definition int_of_char (c : codepoint) : result Z :=
  if (48 <=? c)%N && (c <=? 57)%N then Ok (Z.of_N c - 48) else Raise ValueError.

(** [str.isspace] on one character: the Unicode white-space characters. *)
Definition isspace (c : codepoint) : bool :=
  ((9 <=? c) && (c <=? 13) || (28 <=? c) && (c <=? 32) || (c =? 133)
   || (c =? 160) || (c =? 5760) || (8192 <=? c) && (c <=? 8202)
   || (c =? 8232) || (c =? 8233) || (c =? 8239) || (c =? 8287)
   || (c =? 12288))%N.

(** [s.split()]: the maximal runs of characters that are not white space.
    [cur] is the run being read, in reverse. *)
Fixpoint split_ws_from (cur : pystr) (s : pystr) : list pystr :=
  match s with
  | [] => match cur with [] => [] | _ => [rev cur] end
  | c :: rest =>
      if isspace c
      then match cur with
           | [] => split_ws_from [] rest
           | _ => rev cur :: split_ws_from [] rest
           end
      else split_ws_from (c :: cur) rest
  end.

Definition split (s : pystr) : list pystr := split_ws_from [] s.

(** [sep.join(pieces)] *)
Fixpoint join (sep : pystr) (pieces : list pystr) : pystr :=
  match pieces with
  | [] => []
  | [p] => p
  | p :: rest => p ++ sep ++ join sep rest
  end.

(** [s.endswith(suffix)] *)
Definition endswith (s suffix : pystr) : bool :=
  bool_decide (drop (length s - length suffix) s = suffix).

(** [string.punctuation]: the 32 ASCII punctuation characters, in the
    order of the standard library's constant. *)
Definition punctuation : pystr :=
  [33; 34; 35; 36; 37; 38; 39; 40; 41; 42; 43; 44; 45; 46; 47;
   58; 59; 60; 61; 62; 63; 64;
   91; 92; 93; 94; 95; 96;
   123; 124; 125; 126]%N.

(** [str.maketrans('', '', z)]: a table sending the ordinal of each
    character of [z] to [None]. *)
Definition maketrans_delete (z : pystr) : gmap N (option N) :=
  foldl (fun table c => <[c := None]> table) ∅ z.

(** [s.translate(table)]: a character outside the table is kept, one
    mapped to [None] is deleted, one mapped to an ordinal is replaced. *)
Fixpoint translate (table : gmap N (option N)) (s : pystr) : pystr :=
  match s with
  | [] => []
  | c :: rest =>
      match table !! c with
      | None => c :: translate table rest
      | Some None => translate table rest
      | Some (Some d) => d :: translate table rest
      end
  end.

(** A [for] loop whose body may [return]: the value of the first
    [return] reached, or [None] when the loop falls off its end. *)
Inductive control (R : Type) : Type :=
| Return (r : R)
| Continue.
Arguments Return {R} r.
Arguments Continue {R}.

Fixpoint for_returning {A R} (items : list A) (body : A -> control R) : option R :=
  match items with
  | [] => None
  | x :: rest =>
      match body x with
      | Return r => Some r
      | Continue => for_returning rest body
      end
  end.

(** [enumerate(xs)] *)
Definition enumerate {A} (xs : list A) : list (Z * A) :=
  zip (seqZ 0 (Z.of_nat (length xs))) xs.

End Py.

(** ** The file system, as [pathlib.Path] shows it *)

Module Path.

(** An entry of a directory: [str(file)] and [file.stat().st_size]. *)
Record entry : Set := {
  str : pystr;
  st_size : Z
}.

(** What the module asks of [path_to_raw_txt_data]: whether it exists,
    whether it is a directory, and its entries in the order the
    operating system lists them. *)
Record t : Set := {
  exists_ : bool;
  is_dir : bool;
  listing : list entry
}.

(** [path.glob('*' + suffix)].  The three patterns of the module are
    ['*.json'], ['*_raw.txt'] and ['*']; none of the suffixes holds a
    path separator, so matching the entry's name and matching
    [str(file)] agree. *)
Definition glob (path : t) (suffix : pystr) : list entry :=
  filter (fun file => Is_true (Py.endswith (str file) suffix)) (listing path).

(** The truth value of [path.iterdir()]: a generator object, which is
    true whatever it would yield. *)
Definition iterdir_truth (path : t) : bool := true.

End Path.

(** ['.json'], ['_raw.txt'] and ['_']. *)
Definition dot_json : pystr := [46; 106; 115; 111; 110]%N.
Definition underscore_raw_txt : pystr := [95; 114; 97; 119; 46; 116; 120; 116]%N.
Definition underscore : codepoint := 95%N.

(** ** The CONLL-U data model *)

Module MorphologicalTokenDTO.

(** [__init__] takes [lemma], [pos] and [tags] and stores none of them:
    the object has no attribute. *)
Record t : Set := Build {}.

Definition __init__ (lemma pos tags : pystr) : t := Build.

End MorphologicalTokenDTO.

Module ConlluToken.

Record t : Set := { _text : pystr }.

Definition __init__ (text : pystr) : t := {| _text := text |}.

(** Each method returns its result and the object as the call leaves
    it.  [None] is Python's [None]. *)

(** The body is its docstring: nothing is stored. *)
Definition set_morphological_parameters
    (self : t) (parameters : MorphologicalTokenDTO.t) : unit * t :=
  (tt, self).

(** The body is its docstring: the call evaluates to [None]. *)
Definition get_morphological_parameters
    (self : t) : option MorphologicalTokenDTO.t * t :=
  (None, self).

(** ['«»—%'] *)
Definition extra_punctuation : pystr := [171; 187; 8212; 37]%N.

Section Builtins.

(** [str.lower], Python's Unicode lower-casing of a whole string. *)
Variable lower : pystr -> pystr.

Definition get_cleaned (self : t) : pystr * t :=
  (lower (Py.translate
            (Py.maketrans_delete (Py.punctuation ++ extra_punctuation))
            (_text self)),
   self).

End Builtins.

End ConlluToken.

Module ConlluSentence.

Record t : Set := {
  _position : Z;
  _text : pystr;
  _tokens : list ConlluToken.t
}.

Definition __init__ (position : Z) (text : pystr) (tokens : list ConlluToken.t) : t :=
  {| _position := position; _text := text; _tokens := tokens |}.

(** [' '] *)
Definition space : pystr := [32%N].

Section Builtins.

Variable lower : pystr -> pystr.

(** The generator
    [token.get_cleaned() for token in self._tokens if token.get_cleaned()]:
    each token is cleaned once for the test and, when the test is true
    (a non-empty string), once more for the value.  The result is the
    strings yielded and the tokens as the calls leave them. *)
Fixpoint cleaned_tokens (tokens : list ConlluToken.t)
    : list pystr * list ConlluToken.t :=
  match tokens with
  | [] => ([], [])
  | token :: rest =>
      let '(test, token1) := ConlluToken.get_cleaned lower token in
      match test with
      | [] =>
          let '(pieces, rest') := cleaned_tokens rest in
          (pieces, token1 :: rest')
      | _ :: _ =>
          let '(value, token2) := ConlluToken.get_cleaned lower token1 in
          let '(pieces, rest') := cleaned_tokens rest in
          (value :: pieces, token2 :: rest')
      end
  end.

Definition get_cleaned_sentence (self : t) : pystr * t :=
  let '(pieces, tokens') := cleaned_tokens (_tokens self) in
  (Py.join space pieces,
   {| _position := _position self; _text := _text self; _tokens := tokens' |}).

End Builtins.

End ConlluSentence.

Module Article.

(** Modelled from the spec: the class [Article] of [core_utils.article],
    which is not part of this module.  The spec gives it a numeric ID, a
    raw text, and a mutable slot for the sequence of annotated sentences,
    which holds whatever [set_conllu_sentences] is passed ([None]
    included). *)
Record t : Set := {
  article_id : Z;
  text : pystr;
  _conllu_sentences : option (list ConlluSentence.t)
}.


End Article.

(** A Python [dict] with integer keys: the items in insertion order;
    assigning to a key that is present replaces its value in place. *)
Module Dict.

Fixpoint setitem {V} (k : Z) (v : V) (d : list (Z * V)) : list (Z * V) :=
  match d with
  | [] => [(k, v)]
  | (k', v') :: rest =>
      if k =? k' then (k, v) :: rest else (k', v') :: setitem k v rest
  end.

Definition keys {V} (d : list (Z * V)) : list Z := map fst d.
Definition values {V} (d : list (Z * V)) : list V := map snd d.

End Dict.

(** ** CorpusManager *)

(** [for x in items: body(x)] where the body may raise. *)
Fixpoint for_each {A} (items : list A) (body : A -> result unit) : result unit :=
  match items with
  | [] => Ok tt
  | x :: rest => _ ← body x; for_each rest body
  end.

Module CorpusManager.

Record t : Set := {
  path_to_raw_txt_data : Path.t;
  _storage : list (Z * Article.t)
}.

(** [int(str(file).split('_')[0][-1])] *)
Definition raw_id (file : Path.entry) : result Z :=
  piece ← Py.index_first (Py.split_on underscore (Path.str file));
  c ← Py.index_last piece;
  Py.int_of_char c.

Definition _validate_dataset (self : t) : result unit :=
  let path := path_to_raw_txt_data self in
  if negb (Path.exists_ path) then Raise FileNotFoundError else
  if negb (Path.is_dir path) then Raise NotADirectoryError else
  let meta_files := Path.glob path dot_json in
  let raw_files := Path.glob path underscore_raw_txt in
  ids ← comprehension raw_id (Path.glob path []);
  let raw_ids := Py.sorted ids in
  last_id ← Py.index_last raw_ids;
  let ids_order := Py.range 1 (last_id + 1) in
  if bool_decide (length meta_files ≠ length raw_files)
     || bool_decide (ids_order ≠ Py.slice_step2 raw_ids)
  then Raise InconsistentDatasetError else
  _ ← for_each [meta_files; raw_files] (fun file =>
        first ← Py.index_first file;
        if Path.st_size first =? 0 then Raise InconsistentDatasetError
        else Ok tt);
  if negb (Path.iterdir_truth path) then Raise EmptyDirectoryError else
  Ok tt.

Section Collaborators.

(** [core_utils.article]: the ID of the article a file belongs to, and
    the article read from a raw file.  Either may raise. *)
Variable get_article_id_from_filepath : Path.entry -> result Z.
Variable from_raw : Path.entry -> result Article.t.

(** The loop of [_scan_dataset], from a given storage. *)
Fixpoint scan_files (files : list Path.entry) (storage : list (Z * Article.t))
    : result (list (Z * Article.t)) :=
  match files with
  | [] => Ok storage
  | file :: rest =>
      article_id ← get_article_id_from_filepath file;
      article ← from_raw file;
      scan_files rest (Dict.setitem article_id article storage)
  end.

Definition _scan_dataset (self : t) : result t :=
  storage ← scan_files (Path.glob (path_to_raw_txt_data self) underscore_raw_txt)
                       (_storage self);
  mret {| path_to_raw_txt_data := path_to_raw_txt_data self;
          _storage := storage |}.

Definition __init__ (path_to_raw_txt_data : Path.t) : result t :=
  let self := {| path_to_raw_txt_data := path_to_raw_txt_data;
                 _storage := [] |} in
  _ ← _validate_dataset self;
  _scan_dataset self.

End Collaborators.

Definition get_articles (self : t) : list (Z * Article.t) := _storage self.

End CorpusManager.

(** ** MorphologicalAnalysisPipeline *)

Module MorphologicalAnalysisPipeline.

Record t : Set := { _corpus : CorpusManager.t }.

Definition __init__ (corpus_manager : CorpusManager.t) : t :=
  {| _corpus := corpus_manager |}.

Section Collaborators.

(** [core_utils.article.split_by_sentence] *)
Variable split_by_sentence : pystr -> list pystr.

(** The body of the loop returns in its first pass; with no pass, the
    function ends without a [return], which is [None]. *)
Definition _process (text : pystr) : option (list ConlluSentence.t) :=
  Py.for_returning (Py.enumerate (split_by_sentence text))
    (fun '(idx, sentence) =>
       let conllu_sentences :=
         [ConlluSentence.__init__ idx sentence
            (map ConlluToken.__init__ (Py.split sentence))] in
       Py.Return conllu_sentences).



End Collaborators.

End MorphologicalAnalysisPipeline.

(** ** Concrete corpora and a concrete [str.lower] *)

Module Fixtures.

(** The code points of an ASCII literal. *)
Definition lit (s : String.string) : pystr :=
  map Ascii.N_of_ascii (String.list_ascii_of_string s).
Arguments lit s%_string.

(** [str.lower] on the Basic Latin and Cyrillic capital letters, one
    character at a time; every other character is kept. *)
Definition lower_char (c : codepoint) : codepoint :=
  if (65 <=? c)%N && (c <=? 90)%N then (c + 32)%N
  else if (1040 <=? c)%N && (c <=? 1071)%N then (c + 32)%N
  else if (1024 <=? c)%N && (c <=? 1039)%N then (c + 80)%N
  else c.

Definition lower (s : pystr) : pystr := map lower_char s.

(** The directory [tmp/articles] with, for each ID of [ids] (written in
    decimal), a raw file of 120 bytes and a metadata file of 64. *)
Definition file (name : String.string) (size : Z) : Path.entry :=
  {| Path.str := lit (String.append "tmp/articles/"%string name); Path.st_size := size |}.
Arguments file name%_string size%_Z.

Definition article_files (ids : list String.string) : list Path.entry :=
  flat_map (fun id => [file (String.append id "_raw.txt"%string) 120;
                       file (String.append id "_meta.json"%string) 64]) ids.

Definition directory (files : list Path.entry) : Path.t :=
  {| Path.exists_ := true; Path.is_dir := true; Path.listing := files |}.

Definition manager (files : list Path.entry) : CorpusManager.t :=
  {| CorpusManager.path_to_raw_txt_data := directory files;
     CorpusManager._storage := [] |}.

(** Articles 1 to 10. *)
Definition ten_articles : list Path.entry :=
  article_files ["1"; "2"; "3"; "4"; "5"; "6"; "7"; "8"; "9"; "10"]%string.

(** Articles 1 to [n], for [n] up to 9. *)
Definition first_articles (n : nat) : list Path.entry :=
  article_files (take n ["1"; "2"; "3"; "4"; "5"; "6"; "7"; "8"; "9"]%string).

(** Articles 1, 2 and 13: the IDs 3 to 12 are missing. *)
Definition articles_1_2_13 : list Path.entry :=
  article_files ["1"; "2"; "13"]%string.

(** Articles 1 and 2, the raw file of article 2 being empty. *)
Definition second_raw_empty : list Path.entry :=
  [file "1_raw.txt" 120; file "1_meta.json" 64;
   file "2_raw.txt" 0; file "2_meta.json" 64].

(** Modelled from the spec: [get_article_id_from_filepath] of
    [core_utils.article], which is not part of this module.  The article ID
    is the decimal number that starts the file's name, before the suffix
    [_raw.txt] or [_meta.json]; the name follows the 13 characters of
    [tmp/articles/]. *)
Definition id_of_file (file : Path.entry) : result Z :=
  match Py.split_on underscore (drop 13 (Path.str file)) with
  | digits :: _ =>
      ds ← comprehension Py.int_of_char digits;
      match ds with
      | [] => Raise ValueError
      | _ => Ok (foldl (fun n d => 10 * n + d) 0 ds)
      end
  | [] => Raise ValueError
  end.

(** Modelled from the spec: [from_raw] of [core_utils.article.io], which is
    not part of this module.  It builds the article of a raw file, with the
    ID of the file; every file here holds the same short text. *)
Definition read_raw (file : Path.entry) : result Article.t :=
  article_id ← id_of_file file;
  mret {| Article.article_id := article_id;
          Article.text := lit "Mama myla ramu. Rama byla chistoj.";
          Article._conllu_sentences := None |}.

(** A sentence splitter cutting after each full stop and dropping the
    white space that follows it. *)
Fixpoint split_after_stop (cur : pystr) (s : pystr) : list pystr :=
  match s with
  | [] => match cur with [] => [] | _ => [rev cur] end
  | c :: rest =>
      if (c =? 46)%N then rev (c :: cur) :: split_after_stop [] rest
      else match cur with
           | [] => if Py.isspace c then split_after_stop [] rest
                   else split_after_stop [c] rest
           | _ => split_after_stop (c :: cur) rest
           end
  end.

Definition split_sentences (text : pystr) : list pystr := split_after_stop [] text.

(** [«Давайте»] and [дни.Майских]. *)
Definition davajte : pystr := [171; 1044; 1072; 1074; 1072; 1081; 1090; 1077; 187]%N.
Definition dni_majskih : pystr :=
  [1076; 1085; 1080; 46; 1052; 1072; 1081; 1089; 1082; 1080; 1093]%N.

(** A text of two sentences. *)
Definition two_sentences : pystr := lit "Mama myla ramu. Rama byla chistoj.".

(** A sentence of three tokens, the second of which cleans to the empty
    string. *)
Definition mama_sentence : ConlluSentence.t :=
  ConlluSentence.__init__ 0 (lit "Mama - myla,")
    (map ConlluToken.__init__ [lit "Mama"; lit "-"; lit "myla,"]).

(** A sentence whose one token is [майских» — в], cut from the text of the
    token that [main] builds. *)
Definition main_excerpt : pystr :=
  [1084; 1072; 1081; 1089; 1082; 1080; 1093; 187; 32; 8212; 32; 1074]%N.

Definition main_excerpt_sentence : ConlluSentence.t :=
  ConlluSentence.__init__ 0 main_excerpt [ConlluToken.__init__ main_excerpt].

End Fixtures.

(** ** The properties, in the words of the specification *)

Module Spec.

(** An ASCII punctuation character: a printable ASCII character that is
    not a letter, a digit or the space. *)
Definition is_ascii_punctuation (c : codepoint) : bool :=
  ((33 <=? c) && (c <=? 47) || (58 <=? c) && (c <=? 64)
   || (91 <=? c) && (c <=? 96) || (123 <=? c) && (c <=? 126))%N.

(** The characters cleaning removes: ASCII punctuation and
    [«], [»], [—], [%]. *)
Definition is_removed (c : codepoint) : bool :=
  is_ascii_punctuation c
  || (c =? 171)%N || (c =? 187)%N || (c =? 8212)%N || (c =? 37)%N.

(** The text with the removed characters dropped, then lower-cased. *)
Definition cleaned (lower : pystr -> pystr) (text : pystr) : pystr :=
  lower (filter (fun c => is_removed c = false) text).

(** The single-space join of the non-empty cleaned forms of the tokens,
    in order. *)
Definition cleaned_sentence (lower : pystr -> pystr) (tokens : list ConlluToken.t) : pystr :=
  Py.join [32%N]
    (filter (fun piece => piece ≠ [])
       (map (fun token => cleaned lower (ConlluToken._text token)) tokens)).

(** Two consecutive space characters somewhere in the string. *)
Fixpoint has_double_space (s : pystr) : bool :=
  match s with
  | [] => false
  | a :: rest =>
      match rest with
      | [] => false
      | b :: _ => (a =? 32)%N && (b =? 32)%N || has_double_space rest
      end
  end.

End Spec.

(** ** Lemmas on the Python operations *)

(** ** Corpora whose article IDs are single digits *)

Module Corpus.

(** ['_meta.json'] *)
Definition underscore_meta_json : pystr :=
  [95; 109; 101; 116; 97; 46; 106; 115; 111; 110]%N.

(** The character of the decimal digit [d]. *)
Definition digit (d : Z) : codepoint := Z.to_N (48 + d).

(** [<dir><d>_raw.txt] and [<dir><d>_meta.json], [dir] ending with its
    path separator. *)
Definition raw_name (dir : pystr) (d : Z) : pystr :=
  dir ++ digit d :: underscore_raw_txt.

Definition meta_name (dir : pystr) (d : Z) : pystr :=
  dir ++ digit d :: underscore_meta_json.

(** The path strings of the raw and metadata files of the articles [ds]. *)
Definition names (dir : pystr) (ds : list Z) : list pystr :=
  flat_map (fun d => [raw_name dir d; meta_name dir d]) ds.

(** Each number twice. *)
Definition twice (ds : list Z) : list Z := flat_map (fun d => [d; d]) ds.

(** The number validation reads from an entry, 0 when reading raises. *)
Definition read_id (file : Path.entry) : Z :=
  match CorpusManager.raw_id file with
  | Ok n => n
  | Raise _ => 0
  end.

(** Whether the first file of a list has size zero; [None] for no file. *)
Definition first_is_empty (files : list Path.entry) : option bool :=
  (fun file => Path.st_size file =? 0) <$> head files.

End Corpus.

(** ** More concrete inputs *)

Module Samples.

#[global] Instance entry_eq_dec : EqDecision Path.entry.
Proof. solve_decision. Defined.

(** [tmp/articles/] *)
Definition dir : pystr := Fixtures.lit "tmp/articles/".

(** The six files of the articles 1 to 3, in a mixed order. *)
Definition shuffled_three : list Path.entry :=
  [Fixtures.file "2_meta.json" 64; Fixtures.file "1_raw.txt" 120;
   Fixtures.file "3_raw.txt" 120; Fixtures.file "2_raw.txt" 120;
   Fixtures.file "3_meta.json" 64; Fixtures.file "1_meta.json" 64].

(** The first file of a directory [data_set]. *)
Definition in_data_set : Path.entry :=
  {| Path.str := Fixtures.lit "data_set/1_raw.txt"; Path.st_size := 120 |}.

(** Two raw files whose names start with the number 1, written [1] and
    [01], and two metadata files; each raw file is read as an article
    holding the size of its file as text. *)
Definition repeated_id : list Path.entry :=
  [Fixtures.file "1_raw.txt" 1; Fixtures.file "2_meta.json" 64;
   Fixtures.file "01_raw.txt" 3; Fixtures.file "02_meta.json" 64].

Definition read_size (file : Path.entry) : result Article.t :=
  article_id ← Fixtures.id_of_file file;
  mret {| Article.article_id := article_id;
          Article.text := [Z.to_N (48 + Path.st_size file)];
          Article._conllu_sentences := None |}.

(** A pipeline over the articles 1 to 3. *)
Definition pipeline : MorphologicalAnalysisPipeline.t :=
  MorphologicalAnalysisPipeline.__init__
    {| CorpusManager.path_to_raw_txt_data := Fixtures.directory shuffled_three;
       CorpusManager._storage :=
         [(2, {| Article.article_id := 2; Article.text := Fixtures.two_sentences;
                 Article._conllu_sentences := None |});
          (1, {| Article.article_id := 1; Article.text := [];
                 Article._conllu_sentences := None |})] |}.

End Samples.

(** Membership of a given number in a given list, by evaluation. *)
Ltac in_list := apply (bool_decide_unpack _); vm_compute; exact I.

Section PyLemmas.

Lemma maketrans_delete_from (z : pystr) (table : gmap N (option N)) (c : N) :
  foldl (fun table c => <[c := None]> table) table z !! c
  = if bool_decide (c ∈ z) then Some None else table !! c.
Proof.
  revert table; induction z as [|d z IH]; intros table; cbn [foldl].
  - case_bool_decide; [set_solver | done].
  - rewrite IH.
    destruct (decide (c ∈ z)) as [Hin|Hout], (decide (c = d)) as [->|Hne].
    + rewrite !bool_decide_eq_true_2; [done | by left | done].
    + rewrite !bool_decide_eq_true_2; [done | by right | done].
    + rewrite bool_decide_eq_false_2, bool_decide_eq_true_2, lookup_insert_eq;
        [done | by left | done].
    + rewrite !bool_decide_eq_false_2, lookup_insert_ne; [done | done | | done].
      by intros [?|?]%elem_of_cons.
Qed.

Lemma maketrans_delete_lookup (z : pystr) (c : N) :
  Py.maketrans_delete z !! c = if bool_decide (c ∈ z) then Some None else None.
Proof.
  unfold Py.maketrans_delete. rewrite maketrans_delete_from.
  by rewrite lookup_empty.
Qed.

(** Translating through a deletion table is filtering. *)
Lemma translate_delete (z s : pystr) :
  Py.translate (Py.maketrans_delete z) s = filter (fun c => c ∉ z) s.
Proof.
  induction s as [|c s IH]; [done|]. simpl.
  rewrite maketrans_delete_lookup, IH. case_bool_decide.
  - by rewrite filter_cons_False by auto.
  - by rewrite filter_cons_True.
Qed.

(** The deletion set of [get_cleaned] is the set the specification names. *)
Lemma removed_characters (c : N) :
  c ∈ Py.punctuation ++ ConlluToken.extra_punctuation ↔ Spec.is_removed c = true.
Proof.
  unfold Spec.is_removed, Spec.is_ascii_punctuation. split.
  - intros Hin. unfold Py.punctuation, ConlluToken.extra_punctuation in Hin.
    simpl in Hin. repeat (apply elem_of_cons in Hin as [->|Hin]; [reflexivity|]).
    by apply elem_of_nil in Hin.
  - intros H.
    assert ((33 <= c <= 47)%N ∨ (58 <= c <= 64)%N ∨ (91 <= c <= 96)%N
            ∨ (123 <= c <= 126)%N ∨ c = 171%N ∨ c = 187%N ∨ c = 8212%N) as Hc.
    { repeat match type of H with
             | (_ || _)%bool = true => apply orb_true_iff in H as [H|H]
             | (_ && _)%bool = true => apply andb_true_iff in H as [? ?]
             end;
        repeat match goal with
               | E : (_ <=? _)%N = true |- _ => apply N.leb_le in E
               | E : (_ =? _)%N = true |- _ => apply N.eqb_eq in E
               end; lia. }
    clear H.
    assert (c ∈ Py.punctuation ++ ConlluToken.extra_punctuation) as Hl.
    { destruct Hc as [Hc|[Hc|[Hc|[Hc|Hc]]]].
      - assert (c = 33 ∨ c = 34 ∨ c = 35 ∨ c = 36 ∨ c = 37 ∨ c = 38 ∨ c = 39
                ∨ c = 40 ∨ c = 41 ∨ c = 42 ∨ c = 43 ∨ c = 44 ∨ c = 45
                ∨ c = 46 ∨ c = 47)%N as Hd by lia.
        repeat (destruct Hd as [->|Hd]; [in_list|]). subst; in_list.
      - assert (c = 58 ∨ c = 59 ∨ c = 60 ∨ c = 61 ∨ c = 62 ∨ c = 63 ∨ c = 64)%N
          as Hd by lia.
        repeat (destruct Hd as [->|Hd]; [in_list|]). subst; in_list.
      - assert (c = 91 ∨ c = 92 ∨ c = 93 ∨ c = 94 ∨ c = 95 ∨ c = 96)%N
          as Hd by lia.
        repeat (destruct Hd as [->|Hd]; [in_list|]). subst; in_list.
      - assert (c = 123 ∨ c = 124 ∨ c = 125 ∨ c = 126)%N as Hd by lia.
        repeat (destruct Hd as [->|Hd]; [in_list|]). subst; in_list.
      - destruct Hc as [-> | [-> | ->]]; in_list. }
    done.
Qed.

End PyLemmas.

(** ** ConlluToken and ConlluSentence: cleaning *)

Section Cleaning.

Variable lower : pystr -> pystr.

(** The [translate] call of [get_cleaned] drops exactly the removed
    characters and keeps the others, in order. *)
Lemma translate_removed (text : pystr) :
  Py.translate (Py.maketrans_delete (Py.punctuation ++ ConlluToken.extra_punctuation)) text
  = filter (fun c => Spec.is_removed c = false) text.
Proof.
  rewrite translate_delete. apply list_filter_iff. intros c.
  rewrite removed_characters. by destruct (Spec.is_removed c).
Qed.

Lemma filter_id {A} (P : A -> Prop) `{!∀ x, Decision (P x)} (l : list A) :
  Forall P l -> filter P l = l.
Proof.
  induction 1 as [|x l Hx _ IH]; [done|].
  by rewrite filter_cons_True, IH.
Qed.

Lemma Forall_filter {A} (P : A -> Prop) `{!∀ x, Decision (P x)} (l : list A) :
  Forall P (filter P l).
Proof. apply Forall_forall. by intros x [? _]%list_elem_of_filter. Qed.

(** C6: for every ConlluToken, get_cleaned() returns the token's text with
    every ASCII punctuation character and every one of «, », —, % removed
    (the other characters kept in order, nothing put in their place) and
    the result lower-cased; the token is left as it was. *)
Theorem get_cleaned_removes_and_lowers (token : ConlluToken.t) :
  ConlluToken.get_cleaned lower token
  = (Spec.cleaned lower (ConlluToken._text token), token).
Proof.
  unfold ConlluToken.get_cleaned, Spec.cleaned. by rewrite translate_removed.
Qed.

(** The generator of [get_cleaned_sentence] yields the non-empty cleaned
    forms in order and leaves the tokens as they were. *)
Lemma cleaned_tokens_filter (tokens : list ConlluToken.t) :
  ConlluSentence.cleaned_tokens lower tokens
  = (filter (fun piece => piece ≠ [])
       (map (fun token => Spec.cleaned lower (ConlluToken._text token)) tokens),
     tokens).
Proof.
  induction tokens as [|token tokens IH]; [done|].
  cbn [ConlluSentence.cleaned_tokens map].
  unfold ConlluToken.get_cleaned. rewrite translate_removed, IH.
  fold (Spec.cleaned lower (ConlluToken._text token)).
  destruct (Spec.cleaned lower (ConlluToken._text token)) as [|c piece] eqn:E.
  - by rewrite filter_cons_False by auto.
  - by rewrite filter_cons_True.
Qed.

(** A string without a space has no doubled space, and putting it and one
    space in front of a string that does not start with a space adds
    none. *)
Lemma space_free_then_space (p rest : pystr) :
  32%N ∉ p ->
  head rest ≠ Some 32%N ->
  Spec.has_double_space rest = false ->
  Spec.has_double_space (p ++ 32%N :: rest) = false.
Proof.
  intros Hp Hhead Hrest. induction p as [|a p IH]; simpl.
  - destruct rest as [|b rest]; [done|].
    simpl in Hhead. destruct (N.eqb_spec b 32) as [->|_]; [done|].
    by rewrite Hrest.
  - apply not_elem_of_cons in Hp as [Ha Hp].
    destruct (N.eqb_spec a 32) as [->|_]; [done|]. simpl.
    destruct (p ++ 32%N :: rest) eqn:E; [done|]. by apply IH.
Qed.

Lemma space_free_no_double_space (p : pystr) :
  32%N ∉ p -> Spec.has_double_space p = false.
Proof.
  induction p as [|a p IH]; [done|]. intros [Ha Hp]%not_elem_of_cons. simpl.
  destruct p as [|b p]; [done|].
  destruct (N.eqb_spec a 32) as [->|_]; [done|]. by apply IH.
Qed.

Lemma join_no_double_space (pieces : list pystr) :
  Forall (fun piece => piece ≠ [] ∧ 32%N ∉ piece) pieces ->
  Spec.has_double_space (Py.join [32%N] pieces) = false
  ∧ head (Py.join [32%N] pieces) ≠ Some 32%N.
Proof.
  induction 1 as [|p pieces [Hne Hp] Hrest [IHd IHh]]; [done|].
  destruct pieces as [|q pieces].
  - simpl. split; [by apply space_free_no_double_space|].
    destruct p as [|a p]; [done|]. simpl.
    apply not_elem_of_cons in Hp as [Ha _]. congruence.
  - change (Py.join [32%N] (p :: q :: pieces))
      with (p ++ 32%N :: Py.join [32%N] (q :: pieces)).
    split; [by apply space_free_then_space|].
    destruct p as [|a p]; [done|]. simpl.
    apply not_elem_of_cons in Hp as [Ha _]. congruence.
Qed.

(** [get_cleaned_sentence] leaves the sentence and its tokens as they
    were. *)
Lemma get_cleaned_sentence_pure (sentence : ConlluSentence.t) :
  (ConlluSentence.get_cleaned_sentence lower sentence).2 = sentence.
Proof.
  unfold ConlluSentence.get_cleaned_sentence. rewrite cleaned_tokens_filter.
  by destruct sentence.
Qed.

(** C8 (amended): for every ConlluSentence (any token list, including
    tokens whose cleaned form is empty), get_cleaned_sentence() equals the
    single-space join of the non-empty cleaned forms of its tokens in
    order; when no token's cleaned form contains a space character, the
    result never contains two consecutive space characters. *)
Theorem get_cleaned_sentence_joins (sentence : ConlluSentence.t) :
  let out := (ConlluSentence.get_cleaned_sentence lower sentence).1 in
  out = Spec.cleaned_sentence lower (ConlluSentence._tokens sentence)
  ∧ (Forall (fun token => 32%N ∉ (ConlluToken.get_cleaned lower token).1)
       (ConlluSentence._tokens sentence) ->
     Spec.has_double_space out = false).
Proof.
  unfold ConlluSentence.get_cleaned_sentence, Spec.cleaned_sentence.
  rewrite cleaned_tokens_filter. cbn [fst].
  split; [done|].
  intros Hfree. apply join_no_double_space.
  apply Forall_forall. intros piece [Hne Hin]%list_elem_of_filter.
  split; [done|].
  apply list_elem_of_fmap in Hin as [token [-> Hin]].
  rewrite Forall_forall in Hfree. specialize (Hfree token Hin).
  unfold ConlluToken.get_cleaned in Hfree. by rewrite translate_removed in Hfree.
Qed.

(** What the idempotence of cleaning needs of [str.lower]: lower-casing
    twice is lower-casing once, and lower-casing a string without removed
    characters gives a string without removed characters. *)
Hypothesis lower_idempotent : forall s, lower (lower s) = lower s.
Hypothesis lower_keeps_clean : forall s,
  Forall (fun c => Spec.is_removed c = false) s ->
  Forall (fun c => Spec.is_removed c = false) (lower s).

(** C7: cleaning is idempotent: for every string, the cleaned form of a
    ConlluToken built from the output of get_cleaned() is that output. *)
Theorem get_cleaned_idempotent (text : pystr) :
  let cleaned := (ConlluToken.get_cleaned lower (ConlluToken.__init__ text)).1 in
  (ConlluToken.get_cleaned lower (ConlluToken.__init__ cleaned)).1 = cleaned.
Proof.
  unfold ConlluToken.get_cleaned, ConlluToken.__init__. cbn [fst ConlluToken._text].
  rewrite !translate_removed.
  rewrite (filter_id _ (lower _)); [apply lower_idempotent|].
  apply lower_keeps_clean, Forall_filter.
Qed.

End Cleaning.

(** ** ConlluToken: morphological parameters *)

(** C9 (the code at any token): get_morphological_parameters() evaluates to
    None, on a token whose parameters were never set and on a token right
    after set_morphological_parameters(dto), which leaves the token as it
    was; a MorphologicalTokenDTO is never returned. *)
Theorem get_morphological_parameters_is_None
    (token : ConlluToken.t) (dto : MorphologicalTokenDTO.t) :
  (ConlluToken.get_morphological_parameters token).1 = None
  ∧ (ConlluToken.set_morphological_parameters token dto).2 = token
  ∧ (ConlluToken.get_morphological_parameters
       (ConlluToken.set_morphological_parameters token dto).2).1 = None.
Proof. done. Qed.

(** ** CorpusManager: validation *)

Section Validation.

Lemma raw_id_raises (file : Path.entry) (e : exn) :
  CorpusManager.raw_id file = Raise e -> e = IndexError ∨ e = ValueError.
Proof.
  unfold CorpusManager.raw_id, Py.index_first, Py.index_last, Py.int_of_char.
  intros H. destruct (Py.split_on _ _) as [|piece ?]; simpl in H; [naive_solver|].
  destruct (last piece); simpl in H; [|naive_solver].
  case_match; naive_solver.
Qed.

Lemma comprehension_raises {A B} (f : A -> result B) (xs : list A) (e : exn) :
  comprehension f xs = Raise e -> ∃ x, x ∈ xs ∧ f x = Raise e.
Proof.
  induction xs as [|x xs IH]; [done|]. simpl. intros H.
  destruct (f x) as [y|e'] eqn:Ex; simpl in H.
  - destruct (comprehension f xs) as [ys|e'']; simpl in H; [done|].
    destruct IH as [x' [? ?]]; [done|]. exists x'. split; [by right|done].
  - exists x. split; [by left|congruence].
Qed.

(** Whatever the directory, validation does not raise EmptyDirectoryError:
    the test that would raise it asks whether a generator object is false. *)
Lemma validate_never_EmptyDirectoryError (self : CorpusManager.t) :
  CorpusManager._validate_dataset self ≠ Raise EmptyDirectoryError.
Proof.
  unfold CorpusManager._validate_dataset, Path.iterdir_truth.
  repeat case_match; try done.
  destruct (comprehension CorpusManager.raw_id _) as [ids|e] eqn:Eids; simpl.
  - destruct (Py.index_last (Py.sorted ids)) as [last_id|e] eqn:Elast; simpl.
    + case_match; [done|].
      unfold Py.index_first.
      repeat (case_match; simpl; try done).
    + unfold Py.index_last in Elast. case_match; [done|]. by intros [= ->].
  - intros [= ->]. apply comprehension_raises in Eids as [file [_ Hfile]].
    by apply raw_id_raises in Hfile as [? | ?].
Qed.

(** Construction raises what validation raises. *)
Lemma init_raises_of_validate get_id from_raw (path : Path.t) (e : exn) :
  CorpusManager._validate_dataset
    {| CorpusManager.path_to_raw_txt_data := path; CorpusManager._storage := [] |}
  = Raise e ->
  CorpusManager.__init__ get_id from_raw path = Raise e.
Proof. unfold CorpusManager.__init__. by intros ->. Qed.

End Validation.

(** With at most nine articles, listed in order, the construction succeeds
    and the storage has one entry per article. *)
Lemma up_to_nine_articles_accepted :
  Forall (fun n =>
            ∃ manager,
              CorpusManager.__init__ Fixtures.id_of_file Fixtures.read_raw
                (Fixtures.directory (Fixtures.first_articles n)) = Ok manager
              ∧ Dict.keys (CorpusManager.get_articles manager)
                = seqZ 1 (Z.of_nat n))
    [1; 2; 3; 4; 5; 6; 7; 8; 9]%nat.
Proof. repeat constructor; eexists; (split; [by vm_compute|by vm_compute]). Qed.

(** C1 (the code at a failing input): the directory holds the raw files of
    the articles 1 to 10 and as many metadata files, none of them empty,
    and the construction of CorpusManager raises InconsistentDatasetError,
    whatever the collaborators that read the files. *)
Theorem ten_articles_rejected :
  comprehension Fixtures.id_of_file
    (Path.glob (Fixtures.directory Fixtures.ten_articles) underscore_raw_txt)
  = Ok [1; 2; 3; 4; 5; 6; 7; 8; 9; 10]
  ∧ length (Path.glob (Fixtures.directory Fixtures.ten_articles) dot_json)
    = length (Path.glob (Fixtures.directory Fixtures.ten_articles) underscore_raw_txt)
  ∧ Forall (fun file => Path.st_size file ≠ 0) Fixtures.ten_articles
  ∧ ∀ get_id from_raw,
      CorpusManager.__init__ get_id from_raw (Fixtures.directory Fixtures.ten_articles)
      = Raise InconsistentDatasetError.
Proof.
  split; [by vm_compute|]. split; [by vm_compute|].
  split; [apply (bool_decide_unpack _); by vm_compute|].
  intros get_id from_raw. apply init_raises_of_validate. by vm_compute.
Qed.

(** The example of the specification, the articles 1, 2 and 4, is
    rejected. *)
Example gap_1_2_4_rejected :
  CorpusManager._validate_dataset
    (Fixtures.manager (Fixtures.article_files ["1"; "2"; "4"]%string))
  = Raise InconsistentDatasetError.
Proof. by vm_compute. Qed.

(** C3 (the code at a failing input): the directory holds the raw and
    metadata files of the articles 1, 2 and 13, so the ID 3 is missing
    inside the range 1..13; validation passes and the construction of
    CorpusManager returns a manager with the three articles. *)
Theorem gap_before_13_accepted :
  comprehension Fixtures.id_of_file
    (Path.glob (Fixtures.directory Fixtures.articles_1_2_13) underscore_raw_txt)
  = Ok [1; 2; 13]
  ∧ CorpusManager._validate_dataset (Fixtures.manager Fixtures.articles_1_2_13) = Ok tt
  ∧ ∃ manager,
      CorpusManager.__init__ Fixtures.id_of_file Fixtures.read_raw
        (Fixtures.directory Fixtures.articles_1_2_13) = Ok manager
      ∧ Dict.keys (CorpusManager.get_articles manager) = [1; 2; 13].
Proof.
  split; [by vm_compute|]. split; [by vm_compute|].
  eexists. split; [by vm_compute|]. by vm_compute.
Qed.

(** C4 (the code at the failing input): for the directory without entries
    the construction of CorpusManager raises IndexError, whatever the
    collaborators; and validation raises EmptyDirectoryError for no
    directory at all. *)
Theorem empty_directory_raises_IndexError :
  (∀ get_id from_raw,
     CorpusManager.__init__ get_id from_raw (Fixtures.directory [])
     = Raise IndexError)
  ∧ ∀ self, CorpusManager._validate_dataset self ≠ Raise EmptyDirectoryError.
Proof.
  split; [|apply validate_never_EmptyDirectoryError].
  intros get_id from_raw. by apply init_raises_of_validate.
Qed.

(** C5 (the code at a failing input): the raw file of article 2 has size
    zero and is not the first raw file listed; validation passes and the
    construction of CorpusManager returns a manager with both articles. *)
Theorem empty_second_raw_file_accepted :
  Fixtures.file "2_raw.txt" 0 ∈ Fixtures.second_raw_empty
  ∧ CorpusManager._validate_dataset (Fixtures.manager Fixtures.second_raw_empty) = Ok tt
  ∧ ∃ manager,
      CorpusManager.__init__ Fixtures.id_of_file Fixtures.read_raw
        (Fixtures.directory Fixtures.second_raw_empty) = Ok manager
      ∧ Dict.keys (CorpusManager.get_articles manager) = [1; 2].
Proof.
  split; [do 2 right; left|]. split; [by vm_compute|].
  eexists. split; [by vm_compute|]. by vm_compute.
Qed.

(** ** MorphologicalAnalysisPipeline *)

Section Pipeline.

Variable split_by_sentence : pystr -> list pystr.

Lemma enumerate_cons {A} (x : A) (xs : list A) :
  ∃ tail, Py.enumerate (x :: xs) = (0, x) :: tail.
Proof.
  unfold Py.enumerate. cbn [length].
  rewrite Nat2Z.inj_succ, seqZ_cons by lia. simpl. eauto.
Qed.

(** C2 (the code on any text of two sentences or more): _process returns a
    list holding one ConlluSentence, the first sentence at position 0 with
    its whitespace-delimited tokens; the other sentences are not in it, so
    the list is shorter than the list of sentences. *)
Theorem process_keeps_first_sentence_only
    (text first second : pystr) (others : list pystr) :
  split_by_sentence text = first :: second :: others ->
  ∃ sentences,
    MorphologicalAnalysisPipeline._process split_by_sentence text = Some sentences
    ∧ sentences = [ConlluSentence.__init__ 0 first
                     (map ConlluToken.__init__ (Py.split first))]
    ∧ (length sentences < length (split_by_sentence text))%nat.
Proof.
  intros Hsplit. unfold MorphologicalAnalysisPipeline._process. rewrite Hsplit.
  destruct (enumerate_cons first (second :: others)) as [tail ->].
  eexists. split; [done|]. split; [done|]. simpl. lia.
Qed.

(** C10: when the segmentation returns no sentence for a text, _process
    falls off its loop and evaluates to None, not to an empty list. *)
Theorem process_without_sentences_is_None (text : pystr) :
  split_by_sentence text = [] ->
  MorphologicalAnalysisPipeline._process split_by_sentence text = None.
Proof.
  intros Hsplit. unfold MorphologicalAnalysisPipeline._process.
  by rewrite Hsplit.
Qed.


End Pipeline.

(** ** Instances *)

Ltac split_comparisons :=
  repeat match goal with
         | |- context [(?a <=? ?b)%N] => destruct (N.leb_spec a b); simpl
         | |- context [(?a =? ?b)%N] => destruct (N.eqb_spec a b); simpl
         end.

Lemma lower_char_cases (c : N) :
  ((65 <= c <= 90)%N ∧ Fixtures.lower_char c = (c + 32)%N)
  ∨ ((1040 <= c <= 1071)%N ∧ Fixtures.lower_char c = (c + 32)%N)
  ∨ ((1024 <= c <= 1039)%N ∧ Fixtures.lower_char c = (c + 80)%N)
  ∨ ((c < 65 ∨ 90 < c)%N ∧ (c < 1024 ∨ 1071 < c)%N ∧ Fixtures.lower_char c = c).
Proof. unfold Fixtures.lower_char. split_comparisons; lia. Qed.

Lemma is_removed_false (c : N) :
  Spec.is_removed c = false
  ↔ ((c < 33 ∨ 47 < c) ∧ (c < 58 ∨ 64 < c) ∧ (c < 91 ∨ 96 < c)
     ∧ (c < 123 ∨ 126 < c) ∧ c ≠ 171 ∧ c ≠ 187 ∧ c ≠ 8212)%N.
Proof.
  unfold Spec.is_removed, Spec.is_ascii_punctuation.
  split_comparisons; split; intros; first [done | lia | exfalso; lia].
Qed.

Lemma lower_char_idempotent (c : N) :
  Fixtures.lower_char (Fixtures.lower_char c) = Fixtures.lower_char c.
Proof.
  destruct (lower_char_cases c) as [[? E]|[[? E]|[[? E]|(? & ? & E)]]];
    rewrite !E; [| | |done];
    match goal with
    | |- Fixtures.lower_char ?d = _ =>
        destruct (lower_char_cases d) as [[? ?]|[[? ?]|[[? ?]|(? & ? & ?)]]]
    end; lia.
Qed.

Lemma lower_char_keeps_clean (c : N) :
  Spec.is_removed c = false -> Spec.is_removed (Fixtures.lower_char c) = false.
Proof.
  rewrite !is_removed_false.
  destruct (lower_char_cases c) as [[? ->]|[[? ->]|[[? ->]|(? & ? & ->)]]]; lia.
Qed.

Lemma fixture_lower_idempotent (s : pystr) :
  Fixtures.lower (Fixtures.lower s) = Fixtures.lower s.
Proof.
  unfold Fixtures.lower. rewrite map_map. apply map_ext, lower_char_idempotent.
Qed.

Lemma fixture_lower_keeps_clean (s : pystr) :
  Forall (fun c => Spec.is_removed c = false) s ->
  Forall (fun c => Spec.is_removed c = false) (Fixtures.lower s).
Proof.
  unfold Fixtures.lower. intros H. apply Forall_map.
  eapply Forall_impl; [exact H|]. apply lower_char_keeps_clean.
Qed.

(** The examples of the specification: [«Давайте»] cleans to [давайте] and
    [дни.Майских] to [днимайских]. *)
Example davajte_cleaned :
  (ConlluToken.get_cleaned Fixtures.lower (ConlluToken.__init__ Fixtures.davajte)).1
  = [1076; 1072; 1074; 1072; 1081; 1090; 1077]%N.
Proof. by vm_compute. Qed.

Example dni_majskih_cleaned :
  (ConlluToken.get_cleaned Fixtures.lower (ConlluToken.__init__ Fixtures.dni_majskih)).1
  = [1076; 1085; 1080; 1084; 1072; 1081; 1089; 1082; 1080; 1093]%N.
Proof. by vm_compute. Qed.

(** Idempotence at [«Давайте»], with the lower-casing of Latin and Cyrillic
    letters. *)
Lemma get_cleaned_idempotent_witness :
  (∀ s, Fixtures.lower (Fixtures.lower s) = Fixtures.lower s)
  ∧ (∀ s, Forall (fun c => Spec.is_removed c = false) s ->
          Forall (fun c => Spec.is_removed c = false) (Fixtures.lower s))
  ∧ (ConlluToken.get_cleaned Fixtures.lower
       (ConlluToken.__init__
          (ConlluToken.get_cleaned Fixtures.lower
             (ConlluToken.__init__ Fixtures.davajte)).1)).1
    = (ConlluToken.get_cleaned Fixtures.lower (ConlluToken.__init__ Fixtures.davajte)).1.
Proof.
  split; [exact fixture_lower_idempotent|].
  split; [exact fixture_lower_keeps_clean|].
  exact (get_cleaned_idempotent Fixtures.lower fixture_lower_idempotent
           fixture_lower_keeps_clean Fixtures.davajte).
Defined.

(** The tokens [Mama], [-], [myla,]: no cleaned form holds a space and the
    cleaned sentence [mama myla] has no doubled space. *)
Lemma get_cleaned_sentence_joins_witness :
  Forall (fun token => 32%N ∉ (ConlluToken.get_cleaned Fixtures.lower token).1)
    (ConlluSentence._tokens Fixtures.mama_sentence)
  ∧ Spec.has_double_space
      (ConlluSentence.get_cleaned_sentence Fixtures.lower Fixtures.mama_sentence).1
    = false.
Proof.
  assert (Forall (fun token => 32%N ∉ (ConlluToken.get_cleaned Fixtures.lower token).1)
            (ConlluSentence._tokens Fixtures.mama_sentence)) as Hfree.
  { apply (bool_decide_unpack _). vm_compute. exact I. }
  split; [exact Hfree|].
  exact (proj2 (get_cleaned_sentence_joins Fixtures.lower Fixtures.mama_sentence)
           Hfree).
Defined.

(** C8 as stated fails: the cleaned form of the one token of the sentence
    is [майских  в], with two consecutive spaces, and so is the cleaned
    sentence. *)
Lemma get_cleaned_sentence_double_space :
  (ConlluSentence.get_cleaned_sentence Fixtures.lower Fixtures.main_excerpt_sentence).1
  = [1084; 1072; 1081; 1089; 1082; 1080; 1093; 32; 32; 1074]%N
  ∧ Spec.has_double_space
      (ConlluSentence.get_cleaned_sentence Fixtures.lower
         Fixtures.main_excerpt_sentence).1
    = true.
Proof. split; by vm_compute. Qed.

(** A text of two sentences: [_process] returns the first one only. *)
Lemma process_keeps_first_sentence_only_witness :
  Fixtures.split_sentences Fixtures.two_sentences
  = [Fixtures.lit "Mama myla ramu."; Fixtures.lit "Rama byla chistoj."]
  ∧ ∃ sentences,
      MorphologicalAnalysisPipeline._process Fixtures.split_sentences
        Fixtures.two_sentences = Some sentences
      ∧ sentences = [ConlluSentence.__init__ 0 (Fixtures.lit "Mama myla ramu.")
                       (map ConlluToken.__init__
                          (Py.split (Fixtures.lit "Mama myla ramu.")))]
      ∧ (length sentences
         < length (Fixtures.split_sentences Fixtures.two_sentences))%nat.
Proof.
  assert (Fixtures.split_sentences Fixtures.two_sentences
          = [Fixtures.lit "Mama myla ramu."; Fixtures.lit "Rama byla chistoj."])
    as Hsplit by (vm_compute; reflexivity).
  split; [exact Hsplit|].
  exact (process_keeps_first_sentence_only Fixtures.split_sentences
           Fixtures.two_sentences _ _ [] Hsplit).
Defined.

(** The empty text has no sentence. *)
Lemma process_without_sentences_is_None_witness :
  Fixtures.split_sentences [] = []
  ∧ MorphologicalAnalysisPipeline._process Fixtures.split_sentences [] = None.
Proof.
  split; [reflexivity|].
  exact (process_without_sentences_is_None Fixtures.split_sentences [] eq_refl).
Defined.

(** ** Validation: what it reads and what it can accept *)

Section ReadId.

Lemma split_on_first (sep : N) (p rest : pystr) :
  sep ∉ p -> Py.split_on sep (p ++ sep :: rest) = p :: Py.split_on sep rest.
Proof.
  induction p as [|c p IH]; intros Hp; simpl.
  - by rewrite N.eqb_refl.
  - apply not_elem_of_cons in Hp as [Hc Hp].
    destruct (N.eqb_spec c sep) as [->|_]; [done|]. by rewrite IH.
Qed.

Lemma split_on_absent (sep : N) (p : pystr) :
  sep ∉ p -> Py.split_on sep p = [p].
Proof.
  induction p as [|c p IH]; intros Hp; simpl; [done|].
  apply not_elem_of_cons in Hp as [Hc Hp].
  destruct (N.eqb_spec c sep) as [->|_]; [done|]. by rewrite IH.
Qed.

Lemma raw_id_range (file : Path.entry) (n : Z) :
  CorpusManager.raw_id file = Ok n -> 0 <= n <= 9.
Proof.
  unfold CorpusManager.raw_id, Py.index_first, Py.index_last, Py.int_of_char.
  destruct (Py.split_on _ _) as [|piece ?]; simpl; [done|].
  destruct (last piece) as [c|]; simpl; [|done].
  destruct (N.leb_spec 48 c), (N.leb_spec c 57); simpl; try done.
  intros [= <-]. lia.
Qed.

Lemma raw_id_before_underscore (file : Path.entry) (p rest : pystr) (c : N) :
  underscore ∉ p -> c ≠ underscore ->
  Path.str file = p ++ c :: underscore :: rest ->
  CorpusManager.raw_id file = Py.int_of_char c.
Proof.
  intros Hp Hc Hstr.
  assert (underscore ∉ p ++ [c]) as Hpc.
  { intros [?|?%list_elem_of_singleton]%elem_of_app; done. }
  unfold CorpusManager.raw_id.
  rewrite Hstr, (cons_middle c), app_assoc, split_on_first by done. simpl.
  unfold Py.index_last. by rewrite last_snoc.
Qed.

(** X1: the ID validation reads from an entry is the character just before
    the first underscore of the whole path string, directory names
    included (the last character when there is no underscore), passed to
    int(); a path string that starts with an underscore raises IndexError. *)
Theorem raw_id_reads_before_first_underscore (file : Path.entry) (p rest : pystr) (c : N) :
  underscore ∉ p ->
  c ≠ underscore ->
  (Path.str file = p ++ c :: underscore :: rest ->
   CorpusManager.raw_id file = Py.int_of_char c)
  ∧ (Path.str file = p ++ [c] ->
     CorpusManager.raw_id file = Py.int_of_char c)
  ∧ (Path.str file = underscore :: rest ->
     CorpusManager.raw_id file = Raise IndexError).
Proof.
  intros Hp Hc. split; [by apply raw_id_before_underscore|].
  assert (underscore ∉ p ++ [c]) as Hpc.
  { intros [?|?%list_elem_of_singleton]%elem_of_app; done. }
  unfold CorpusManager.raw_id. split; intros ->.
  - rewrite split_on_absent by done. simpl.
    unfold Py.index_last. by rewrite last_snoc.
  - done.
Qed.

End ReadId.

(** ** Lemmas on comprehensions, sorting and suffixes *)

Section Accepted.

Lemma comprehension_Ok {A B} (f : A -> result B) (xs : list A) (ys : list B) :
  comprehension f xs = Ok ys -> Forall2 (fun x y => f x = Ok y) xs ys.
Proof.
  revert ys; induction xs as [|x xs IH]; intros ys; simpl.
  - intros [= <-]. constructor.
  - destruct (f x) as [y|] eqn:Ex; simpl; [|done].
    destruct (comprehension f xs) as [ys'|]; simpl; [|done].
    intros [= <-]. constructor; [done|by apply IH].
Qed.

Lemma comprehension_all_Ok {A B} (f : A -> result B) (g : A -> B) (xs : list A) :
  Forall (fun x => f x = Ok (g x)) xs -> comprehension f xs = Ok (map g xs).
Proof.
  induction 1 as [|x xs Hx _ IH]; [done|]. simpl. by rewrite Hx, IH.
Qed.

Lemma insert_sorted_Permutation (x : Z) (l : list Z) :
  Py.insert_sorted x l ≡ₚ x :: l.
Proof.
  induction l as [|y l IH]; [done|]. simpl.
  destruct (x <=? y); [done|]. rewrite IH. apply Permutation_swap.
Qed.

Lemma sorted_Permutation (l : list Z) : Py.sorted l ≡ₚ l.
Proof.
  induction l as [|x l IH]; [done|]. unfold Py.sorted in *. simpl.
  by rewrite insert_sorted_Permutation, IH.
Qed.

Lemma insert_sorted_Sorted (x : Z) (l : list Z) :
  Sorted Z.le l -> Sorted Z.le (Py.insert_sorted x l).
Proof.
  induction 1 as [|y l Hl IH Hy]; simpl; [by repeat constructor|].
  destruct (Z.leb_spec x y).
  - constructor; [by constructor|by constructor].
  - constructor; [done|].
    destruct Hy as [|z l Hz]; simpl.
    + constructor. lia.
    + destruct (x <=? z); constructor; lia.
Qed.

Lemma sorted_Sorted (l : list Z) : Sorted Z.le (Py.sorted l).
Proof.
  induction l as [|x l IH]; [constructor|]. by apply insert_sorted_Sorted.
Qed.

(** [sorted] depends on the numbers, not on their order. *)
Lemma sorted_of_Permutation (l1 l2 : list Z) :
  l1 ≡ₚ l2 -> Py.sorted l1 = Py.sorted l2.
Proof.
  intros H. apply (Sorted_unique Z.le); [apply sorted_Sorted..|].
  by rewrite !sorted_Permutation.
Qed.

Lemma length_slice_step2 {A} (l : list A) :
  (length l <= 2 * length (Py.slice_step2 l))%nat.
Proof.
  assert (∀ l : list A,
            (length l <= 2 * length (Py.slice_step2 l))%nat
            ∧ ∀ x, (length (x :: l) <= 2 * length (Py.slice_step2 (x :: l)))%nat)
    as H; [|exact (proj1 (H l))].
  clear l. induction l as [|y l [IH1 IH2]].
  - split; [simpl; lia|intros; simpl; lia].
  - split; [exact (IH2 y)|]. intros x. simpl in *. lia.
Qed.

Lemma endswith_true (s suffix : pystr) :
  Py.endswith s suffix = true ↔ ∃ p, s = p ++ suffix.
Proof.
  unfold Py.endswith. rewrite bool_decide_eq_true. split.
  - intros H. exists (take (length s - length suffix) s).
    symmetry. etrans; [|apply (take_drop (length s - length suffix) s)].
    by f_equal.
  - intros [p ->]. rewrite length_app.
    replace (length p + length suffix - length suffix)%nat with (length p) by lia.
    by rewrite drop_app_length.
Qed.

Lemma glob_all (path : Path.t) : Path.glob path [] = Path.listing path.
Proof.
  unfold Path.glob. apply filter_id, Forall_forall. intros file _.
  apply Is_true_true, endswith_true. exists (Path.str file). by rewrite app_nil_r.
Qed.

End Accepted.

(** ** What validation accepts *)

Section AcceptedCorpora.

Lemma validate_Ok (self : CorpusManager.t) :
  let path := CorpusManager.path_to_raw_txt_data self in
  CorpusManager._validate_dataset self = Ok tt ↔
    Path.exists_ path = true ∧ Path.is_dir path = true
    ∧ ∃ ids last_id,
        comprehension CorpusManager.raw_id (Path.listing path) = Ok ids
        ∧ last (Py.sorted ids) = Some last_id
        ∧ length (Path.glob path dot_json) = length (Path.glob path underscore_raw_txt)
        ∧ Py.range 1 (last_id + 1) = Py.slice_step2 (Py.sorted ids)
        ∧ (∃ m, head (Path.glob path dot_json) = Some m ∧ Path.st_size m ≠ 0)
        ∧ (∃ r, head (Path.glob path underscore_raw_txt) = Some r
                ∧ Path.st_size r ≠ 0).
Proof.
  intros path. unfold CorpusManager._validate_dataset. fold path. rewrite glob_all.
  destruct (Path.exists_ path); simpl; [|split; [done|by intros [? _]]].
  destruct (Path.is_dir path); simpl; [|split; [done|by intros (_ & ? & _)]].
  destruct (comprehension _ _) as [ids|e]; simpl;
    [|split; [done|by intros (_ & _ & ? & ? & ? & _)]].
  unfold Py.index_last.
  destruct (last (Py.sorted ids)) as [last_id|] eqn:Elast; simpl;
    [|split; [done|intros (_ & _ & ? & ? & [= <-] & ? & _); congruence]].
  unfold Path.iterdir_truth, Py.index_first.
  split.
  - intros H. do 2 (split; [done|]). exists ids, last_id.
    do 2 (split; [done|]).
    repeat case_bool_decide; simpl in H; try done.
    do 2 (split; [done|]).
    destruct (Path.glob path dot_json) as [|m ?]; simpl in H; [done|].
    destruct (Z.eqb_spec (Path.st_size m) 0); simpl in H; [done|].
    destruct (Path.glob path underscore_raw_txt) as [|r ?]; simpl in H; [done|].
    destruct (Z.eqb_spec (Path.st_size r) 0); simpl in H; [done|].
    split; eauto.
  - intros (_ & _ & ids' & last' & [= <-] & Hlast' & Hlen & Hrange
            & (m & Hm & Hms) & (r & Hr & Hrs)).
    assert (last' = last_id) as -> by congruence.
    rewrite !bool_decide_eq_false_2 by (by intros ?). simpl.
    destruct (Path.glob path dot_json) as [|m' ?]; simplify_eq/=.
    destruct (Path.glob path underscore_raw_txt) as [|r' ?]; simplify_eq/=.
    by rewrite !(proj2 (Z.eqb_neq _ _)).
Qed.

Lemma endswith_last (s suffix : pystr) (c : N) :
  Py.endswith s suffix = true -> last suffix = Some c -> last s = Some c.
Proof.
  intros [p ->]%endswith_true Hc. rewrite last_app. by rewrite Hc.
Qed.

Lemma length_filter_disjoint {A} (P Q : A -> Prop)
    `{!∀ x, Decision (P x)} `{!∀ x, Decision (Q x)} (l : list A) :
  (∀ x, P x -> Q x -> False) ->
  (length (filter P l) + length (filter Q l) <= length l)%nat.
Proof.
  intros Hdisj. induction l as [|x l IH]; [done|].
  rewrite !filter_cons. destruct (decide (P x)), (decide (Q x)); simpl; try lia.
  by destruct (Hdisj x).
Qed.

Lemma accepted_is_small (self : CorpusManager.t) :
  let path := CorpusManager.path_to_raw_txt_data self in
  CorpusManager._validate_dataset self = Ok tt ->
  (length (Path.listing path) <= 18)%nat
  ∧ (1 <= length (Path.glob path underscore_raw_txt) <= 9)%nat
  ∧ length (Path.glob path dot_json) = length (Path.glob path underscore_raw_txt).
Proof.
  intros path (_ & _ & ids & last_id & Hids & Hlast & Hlen & Hrange
               & (m & Hm & _) & (r & Hr & _))%validate_Ok.
  fold path in Hids, Hlen, Hm, Hr.
  apply comprehension_Ok in Hids.
  assert (length (Path.listing path) <= 18)%nat as Hsmall.
  { assert (0 <= last_id <= 9) as Hl.
    { apply last_Some_elem_of in Hlast. rewrite sorted_Permutation in Hlast.
      apply list_elem_of_lookup in Hlast as [i Hi].
      destruct (Forall2_lookup_r _ _ _ _ _ Hids Hi) as (file & _ & Hfile).
      by apply raw_id_range in Hfile. }
    pose proof (length_slice_step2 (Py.sorted ids)) as Hslice.
    rewrite <-Hrange in Hslice. unfold Py.range in Hslice.
    rewrite length_seqZ, (Permutation_length (sorted_Permutation ids)) in Hslice.
    rewrite (Forall2_length _ _ _ Hids). lia. }
  split; [done|]. split; [|done].
  pose proof (length_filter_disjoint
                (fun file => Is_true (Py.endswith (Path.str file) dot_json))
                (fun file => Is_true (Py.endswith (Path.str file) underscore_raw_txt))
                (Path.listing path)) as Hdisj.
  fold (Path.glob path dot_json) in Hdisj.
  fold (Path.glob path underscore_raw_txt) in Hdisj.
  destruct (Path.glob path underscore_raw_txt); [done|].
  split; [simpl; lia|].
  enough (length (Path.glob path dot_json) + length (e :: l) <= length (Path.listing path))%nat
    by lia.
  apply Hdisj. intros file H1%Is_true_true H2%Is_true_true.
  pose proof (endswith_last _ _ 110%N H1 eq_refl).
  pose proof (endswith_last _ _ 116%N H2 eq_refl). congruence.
Qed.

(** X2: a directory that validation accepts holds at most 18 entries, and
    between one and nine raw files with as many metadata files: the IDs it
    reads are single digits, and every second one of them, sorted, has to
    be 1, 2, ..., up to the largest. *)
Theorem accepted_corpus_is_small (self : CorpusManager.t) :
  let path := CorpusManager.path_to_raw_txt_data self in
  CorpusManager._validate_dataset self = Ok tt ->
  (length (Path.listing path) <= 18)%nat
  ∧ (1 <= length (Path.glob path underscore_raw_txt) <= 9)%nat
  ∧ length (Path.glob path dot_json) = length (Path.glob path underscore_raw_txt).
Proof. apply accepted_is_small. Qed.

End AcceptedCorpora.

Section ListingOrder.

Lemma comprehension_read_id (files : list Path.entry) (ids : list Z) :
  comprehension CorpusManager.raw_id files = Ok ids ->
  ids = map Corpus.read_id files
  ∧ Forall (fun file => CorpusManager.raw_id file = Ok (Corpus.read_id file)) files.
Proof.
  intros H%comprehension_Ok. induction H as [|file id files ids Hid _ [-> IH]].
  - by split.
  - assert (Corpus.read_id file = id) as Hr
      by (unfold Corpus.read_id; by rewrite Hid).
    split; [simpl; by rewrite Hr|]. constructor; [by rewrite Hr|done].
Qed.

Lemma validate_rejects (self : CorpusManager.t) (ids : list Z) (last_id : Z) :
  let path := CorpusManager.path_to_raw_txt_data self in
  Path.exists_ path = true -> Path.is_dir path = true ->
  comprehension CorpusManager.raw_id (Path.listing path) = Ok ids ->
  last (Py.sorted ids) = Some last_id ->
  length (Path.glob path dot_json) ≠ length (Path.glob path underscore_raw_txt)
  ∨ Py.range 1 (last_id + 1) ≠ Py.slice_step2 (Py.sorted ids) ->
  CorpusManager._validate_dataset self = Raise InconsistentDatasetError.
Proof.
  intros path Hex Hdir Hids Hlast Hbad.
  unfold CorpusManager._validate_dataset. fold path.
  rewrite glob_all, Hex, Hdir, Hids. simpl.
  unfold Py.index_last. rewrite Hlast. simpl.
  destruct Hbad as [Hbad|Hbad].
  - by rewrite (bool_decide_eq_true_2 _ Hbad).
  - rewrite (bool_decide_eq_true_2 (Py.range _ _ ≠ _) Hbad). by rewrite orb_true_r.
Qed.

(** X3: when no file of the directory is empty, acceptance does not depend
    on the order in which the operating system lists the entries. *)
Theorem accepted_in_any_order (files files' : list Path.entry) :
  files ≡ₚ files' ->
  Forall (fun file => Path.st_size file ≠ 0) files ->
  CorpusManager._validate_dataset (Fixtures.manager files) = Ok tt ->
  CorpusManager._validate_dataset (Fixtures.manager files') = Ok tt.
Proof.
  intros Hperm Hsizes (_ & _ & ids & last_id & Hids & Hlast & Hlen & Hrange
                       & (m & Hm & _) & (r & Hr & _))%validate_Ok.
  simpl in *. apply validate_Ok. simpl. do 2 (split; [done|]).
  apply comprehension_read_id in Hids as [-> Hall].
  exists (map Corpus.read_id files'), last_id.
  assert (Py.sorted (map Corpus.read_id files') = Py.sorted (map Corpus.read_id files))
    as Hsorted by (apply sorted_of_Permutation; by rewrite Hperm).
  assert (∀ suffix,
            length (Path.glob (Fixtures.directory files') suffix)
            = length (Path.glob (Fixtures.directory files) suffix)) as Hglob.
  { intros suffix. unfold Path.glob. simpl. by rewrite Hperm. }
  assert (∀ suffix,
            Path.glob (Fixtures.directory files) suffix ≠ [] ->
            ∃ first, head (Path.glob (Fixtures.directory files') suffix) = Some first
                     ∧ Path.st_size first ≠ 0) as Hhead.
  { intros suffix Hne. specialize (Hglob suffix).
    destruct (Path.glob (Fixtures.directory files') suffix) as [|first others] eqn:E.
    - destruct (Path.glob (Fixtures.directory files) suffix); done.
    - exists first. split; [done|].
      assert (first ∈ files') as Hin.
      { assert (first ∈ Path.glob (Fixtures.directory files') suffix) as Hin
          by (rewrite E; left).
        by apply list_elem_of_filter in Hin as [_ ?]. }
      rewrite <-Hperm in Hin. by apply (proj1 (Forall_forall _ _) Hsizes). }
  rewrite Hsorted, !Hglob.
  split; [apply comprehension_all_Ok; by rewrite <-Hperm|].
  do 3 (split; [done|]).
  split; apply Hhead; intros E; by rewrite E in *.
Qed.

End ListingOrder.

(** ** Single-digit corpora *)

Section SingleDigits.

Lemma digit_read (d : Z) :
  0 <= d <= 9 ->
  Py.int_of_char (Corpus.digit d) = Ok d ∧ Corpus.digit d ≠ underscore.
Proof.
  intros Hd. unfold Py.int_of_char, Corpus.digit, underscore.
  destruct (N.leb_spec 48 (Z.to_N (48 + d))), (N.leb_spec (Z.to_N (48 + d)) 57);
    try lia.
  simpl. split; [f_equal; lia|lia].
Qed.

Lemma raw_id_of_name (dir : pystr) (d : Z) (file : Path.entry) :
  underscore ∉ dir -> 0 <= d <= 9 ->
  Path.str file = Corpus.raw_name dir d ∨ Path.str file = Corpus.meta_name dir d ->
  CorpusManager.raw_id file = Ok d.
Proof.
  intros Hdir Hd Hstr. destruct (digit_read d Hd) as [<- Hne].
  destruct Hstr as [Hstr|Hstr];
    eapply raw_id_before_underscore; try done; rewrite Hstr; reflexivity.
Qed.

Lemma glob_cons (file : Path.entry) (files : list Path.entry) (suffix : pystr) :
  Path.glob (Fixtures.directory (file :: files)) suffix
  = if Py.endswith (Path.str file) suffix
    then file :: Path.glob (Fixtures.directory files) suffix
    else Path.glob (Fixtures.directory files) suffix.
Proof.
  unfold Path.glob. simpl. rewrite filter_cons.
  destruct (Py.endswith (Path.str file) suffix); by case_decide.
Qed.

Lemma endswith_names (dir : pystr) (d : Z) :
  Py.endswith (Corpus.raw_name dir d) underscore_raw_txt = true
  ∧ Py.endswith (Corpus.raw_name dir d) dot_json = false
  ∧ Py.endswith (Corpus.meta_name dir d) underscore_raw_txt = false
  ∧ Py.endswith (Corpus.meta_name dir d) dot_json = true.
Proof.
  assert (last (Corpus.raw_name dir d) = Some 116%N) as Hraw
    by (unfold Corpus.raw_name; by rewrite last_app).
  assert (last (Corpus.meta_name dir d) = Some 110%N) as Hmeta
    by (unfold Corpus.meta_name; by rewrite last_app).
  repeat split.
  - apply endswith_true. exists (dir ++ [Corpus.digit d]).
    unfold Corpus.raw_name. by rewrite <-app_assoc.
  - apply not_true_is_false. intros H.
    pose proof (endswith_last _ _ 110%N H eq_refl). congruence.
  - apply not_true_is_false. intros H.
    pose proof (endswith_last _ _ 116%N H eq_refl). congruence.
  - apply endswith_true.
    exists (dir ++ Corpus.digit d :: [95; 109; 101; 116; 97]%N).
    unfold Corpus.meta_name. by rewrite <-app_assoc.
Qed.

(** The files of a single-digit corpus, listed article by article. *)
Lemma listed_by_article (dir : pystr) (ds : list Z) (files : list Path.entry) :
  underscore ∉ dir ->
  Forall (fun d => 0 <= d <= 9) ds ->
  map Path.str files = Corpus.names dir ds ->
  map Corpus.read_id files = Corpus.twice ds
  ∧ Forall (fun file => CorpusManager.raw_id file = Ok (Corpus.read_id file)) files
  ∧ length (Path.glob (Fixtures.directory files) dot_json) = length ds
  ∧ length (Path.glob (Fixtures.directory files) underscore_raw_txt) = length ds.
Proof.
  intros Hdir Hds. revert files.
  induction Hds as [|d ds Hd _ IH]; intros files Hstr.
  - destruct files; [|done]. by repeat split.
  - destruct files as [|raw [|meta files]]; try done.
    injection Hstr as Hraw Hmeta Hstr.
    destruct (IH files Hstr) as (IH1 & IH2 & IH3 & IH4).
    pose proof (raw_id_of_name dir d raw Hdir Hd (or_introl Hraw)) as Eraw.
    pose proof (raw_id_of_name dir d meta Hdir Hd (or_intror Hmeta)) as Emeta.
    assert (Corpus.read_id raw = d) as Rraw by (unfold Corpus.read_id; by rewrite Eraw).
    assert (Corpus.read_id meta = d) as Rmeta by (unfold Corpus.read_id; by rewrite Emeta).
    destruct (endswith_names dir d) as (E1 & E2 & E3 & E4).
    rewrite !glob_cons, Hraw, Hmeta, E1, E2, E3, E4. simpl.
    rewrite IH1, IH3, IH4, Rraw, Rmeta.
    repeat split; try done.
    do 2 (constructor; [congruence|]). done.
Qed.

Lemma twice_app (l : list Z) : Corpus.twice l ≡ₚ l ++ l.
Proof.
  induction l as [|x l IH]; [done|]. simpl. rewrite IH.
  constructor. apply Permutation_middle.
Qed.

Lemma twice_Permutation (l1 l2 : list Z) :
  l1 ≡ₚ l2 -> Corpus.twice l1 ≡ₚ Corpus.twice l2.
Proof. intros H. by rewrite !twice_app, H. Qed.

Lemma twice_Sorted (l : list Z) : Sorted Z.le l -> Sorted Z.le (Corpus.twice l).
Proof.
  induction 1 as [|x l _ IH Hx]; simpl; [constructor|].
  constructor; [|constructor; lia].
  constructor; [done|]. destruct Hx; simpl; constructor; lia.
Qed.

Lemma sorted_twice (l : list Z) : Py.sorted (Corpus.twice l) = Corpus.twice (Py.sorted l).
Proof.
  apply (Sorted_unique Z.le); [apply sorted_Sorted|apply twice_Sorted, sorted_Sorted|].
  rewrite sorted_Permutation. apply twice_Permutation. by rewrite sorted_Permutation.
Qed.

Lemma slice_step2_twice (l : list Z) : Py.slice_step2 (Corpus.twice l) = l.
Proof. induction l as [|x l IH]; [done|]. simpl. by rewrite IH. Qed.

Lemma last_twice (l : list Z) : last (Corpus.twice l) = last l.
Proof.
  induction l as [|x l IH]; [done|].
  change (Corpus.twice (x :: l)) with ([x; x] ++ Corpus.twice l).
  rewrite last_app, IH, (last_cons x l). by destruct (last l).
Qed.

Lemma last_seqZ_1 (n : nat) : (0 < n)%nat -> last (seqZ 1 (Z.of_nat n)) = Some (Z.of_nat n).
Proof.
  destruct n as [|n]; [lia|]. intros _. rewrite seqZ_S, last_snoc. f_equal. lia.
Qed.

(** X4: in a directory whose path string has no underscore and that holds,
    in any order, the non-empty files <d>_raw.txt and <d>_meta.json of
    articles with single-digit IDs, validation accepts the corpus exactly
    when the IDs are 1, 2, ..., N without a gap, and raises
    InconsistentDatasetError otherwise. *)
Theorem single_digit_corpus_validated
    (dir : pystr) (ds : list Z) (files : list Path.entry) :
  underscore ∉ dir ->
  Forall (fun d => 0 <= d <= 9) ds ->
  ds ≠ [] ->
  map Path.str files ≡ₚ Corpus.names dir ds ->
  Forall (fun file => Path.st_size file ≠ 0) files ->
  CorpusManager._validate_dataset (Fixtures.manager files)
  = if decide (Py.sorted ds = seqZ 1 (Z.of_nat (length ds)))
    then Ok tt else Raise InconsistentDatasetError.
Proof.
  intros Hdir Hds Hne Hnames Hsizes.
  symmetry in Hnames.
  apply Permutation_map_inv in Hnames as (listed & Hlisted & Hperm).
  symmetry in Hlisted.
  destruct (listed_by_article dir ds listed Hdir Hds Hlisted)
    as (Hids & Hall & Hmeta & Hraw).
  assert (comprehension CorpusManager.raw_id files = Ok (map Corpus.read_id files))
    as Hcomp by (apply comprehension_all_Ok; by rewrite Hperm).
  assert (Py.sorted (map Corpus.read_id files) = Corpus.twice (Py.sorted ds)) as Hsorted.
  { rewrite <-sorted_twice, <-Hids. apply sorted_of_Permutation. by rewrite Hperm. }
  assert (∀ suffix, length (Path.glob (Fixtures.directory files) suffix)
                    = length (Path.glob (Fixtures.directory listed) suffix)) as Hglob.
  { intros suffix. unfold Path.glob. simpl. by rewrite Hperm. }
  assert (length (Py.sorted ds) = length ds) as Hlen
    by (by rewrite sorted_Permutation).
  destruct (last (Py.sorted ds)) as [last_id|] eqn:Hlast.
  2: { apply last_None in Hlast. rewrite Hlast in Hlen. by destruct ds. }
  case_decide as Hexact.
  - apply validate_Ok. simpl. do 2 (split; [done|]).
    exists (map Corpus.read_id files), last_id.
    rewrite Hsorted, last_twice, slice_step2_twice, !Hglob, Hmeta, Hraw.
    do 3 (split; [done|]).
    assert (last_id = Z.of_nat (length ds)) as ->.
    { rewrite Hexact, last_seqZ_1 in Hlast; [congruence|].
      destruct ds; [done|simpl; lia]. }
    split; [unfold Py.range; rewrite Hexact; f_equal; lia|].
    assert (∀ suffix, length (Path.glob (Fixtures.directory files) suffix) = length ds ->
              ∃ first, head (Path.glob (Fixtures.directory files) suffix) = Some first
                       ∧ Path.st_size first ≠ 0) as Hhead.
    { intros suffix Hsuffix.
      destruct (Path.glob (Fixtures.directory files) suffix) as [|first others] eqn:E.
      - by destruct ds.
      - exists first. split; [done|].
        assert (first ∈ Path.glob (Fixtures.directory files) suffix) as Hin
          by (rewrite E; left).
        apply list_elem_of_filter in Hin as [_ Hin].
        by apply (proj1 (Forall_forall _ _) Hsizes). }
    split; apply Hhead; by rewrite Hglob.
  - apply (validate_rejects _ (map Corpus.read_id files) last_id); try done.
    { by rewrite Hsorted, last_twice. }
    right. rewrite Hsorted, slice_step2_twice. unfold Py.range. intros Hrange.
    apply Hexact. rewrite <-Hrange. f_equal.
    apply (f_equal length) in Hrange. rewrite length_seqZ, Hlen in Hrange.
    destruct ds; [done|]. simpl in Hrange. simpl length. lia.
Qed.

End SingleDigits.

(** ** The storage *)

Section Scanning.

Context {V : Type}.

Lemma keys_setitem (k : Z) (v : V) (d : list (Z * V)) :
  Dict.keys (Dict.setitem k v d)
  = if decide (k ∈ Dict.keys d) then Dict.keys d else Dict.keys d ++ [k].
Proof.
  unfold Dict.keys. induction d as [|[k' v'] d IH]; cbn [Dict.setitem map fst].
  - case_decide as H; [by apply elem_of_nil in H|done].
  - destruct (Z.eqb_spec k k') as [->|Hne]; cbn [map fst].
    + by rewrite decide_True by left.
    + rewrite IH. destruct (decide (k ∈ map fst d)).
      * by rewrite decide_True by (by right).
      * by rewrite decide_False by (by intros [?|?]%elem_of_cons).
Qed.

Lemma NoDup_keys_setitem (k : Z) (v : V) (d : list (Z * V)) :
  NoDup (Dict.keys d) -> NoDup (Dict.keys (Dict.setitem k v d)).
Proof.
  intros Hd. rewrite keys_setitem. case_decide; [done|].
  apply NoDup_app. split; [done|]. split; [|apply NoDup_singleton].
  by intros ? ? ->%list_elem_of_singleton.
Qed.

Lemma length_setitem (k : Z) (v : V) (d : list (Z * V)) :
  (length d <= length (Dict.setitem k v d) <= S (length d))%nat.
Proof.
  induction d as [|[k' v'] d IH]; simpl; [lia|].
  destruct (k =? k'); simpl; lia.
Qed.

Lemma elem_of_setitem (k : Z) (v : V) (d : list (Z * V)) (k' : Z) (v' : V) :
  NoDup (Dict.keys d) ->
  (k', v') ∈ Dict.setitem k v d ↔ (k' = k ∧ v' = v) ∨ (k' ≠ k ∧ (k', v') ∈ d).
Proof.
  induction d as [|[k0 v0] d IH]; cbn [Dict.setitem Dict.keys map fst]; intros Hd.
  - rewrite list_elem_of_singleton, elem_of_nil.
    split; [intros [= -> ->]; by left|intros [[-> ->]|[_ []]]; done].
  - apply NoDup_cons in Hd as [Hk0 Hd].
    assert (∀ a, (k0, a) ∉ d) as Hfresh.
    { intros a Hin. apply Hk0, list_elem_of_fmap. by exists (k0, a). }
    destruct (Z.eqb_spec k k0) as [->|Hne]; rewrite !elem_of_cons.
    + split.
      * intros [[= -> ->]|Hin]; [by left|]. right.
        split; [intros ->; by apply (Hfresh v')|by right].
      * intros [[-> ->]|[Hne [[= -> ->]|Hin]]]; [by left|done|by right].
    + rewrite (IH Hd). split.
      * intros [[= -> ->]|[[-> ->]|[Hne' Hin]]].
        -- right. split; [done|by left].
        -- by left.
        -- right. split; [done|by right].
      * intros [[-> ->]|[Hne' [[= -> ->]|Hin]]].
        -- right. by left.
        -- by left.
        -- right. right. by split.
Qed.

Lemma setitem_new (k : Z) (v : V) (d : list (Z * V)) :
  k ∉ Dict.keys d -> Dict.setitem k v d = d ++ [(k, v)].
Proof.
  induction d as [|[k' v'] d IH]; simpl; [done|].
  intros [Hne Hk]%not_elem_of_cons.
  destruct (Z.eqb_spec k k'); [done|]. by rewrite IH.
Qed.

End Scanning.

Section Construction.

Variable get_article_id_from_filepath : Path.entry -> result Z.
Variable from_raw : Path.entry -> result Article.t.

Lemma scan_files_storage (files : list Path.entry) (storage storage' : list (Z * Article.t)) :
  CorpusManager.scan_files get_article_id_from_filepath from_raw files storage
  = Ok storage' ->
  NoDup (Dict.keys storage) ->
  NoDup (Dict.keys storage')
  ∧ (length storage <= length storage' <= length storage + length files)%nat
  ∧ (files ≠ [] -> storage' ≠ [])
  ∧ ∀ k a, (k, a) ∈ storage' ↔
       ((k, a) ∈ storage ∧ ∀ file, file ∈ files -> get_article_id_from_filepath file ≠ Ok k)
       ∨ ∃ before file after,
           files = before ++ file :: after
           ∧ get_article_id_from_filepath file = Ok k
           ∧ from_raw file = Ok a
           ∧ ∀ later, later ∈ after -> get_article_id_from_filepath later ≠ Ok k.
Proof.
  revert storage. induction files as [|file files IH]; intros storage Hscan Hnodup.
  - injection Hscan as <-. split; [done|]. split; [simpl; lia|]. split; [done|].
    intros k a. split.
    + intros Hin. left. split; [done|]. by intros ? ?%elem_of_nil.
    + intros [[? _]|(before & ? & ? & Hnil & _)]; [done|].
      by destruct before.
  - cbn [CorpusManager.scan_files] in Hscan.
    destruct (get_article_id_from_filepath file) as [k0|] eqn:Eid; simpl in Hscan; [|done].
    destruct (from_raw file) as [a0|] eqn:Eraw; simpl in Hscan; [|done].
    destruct (IH _ Hscan (NoDup_keys_setitem k0 a0 storage Hnodup))
      as (IH1 & IH2 & _ & IH4).
    pose proof (length_setitem k0 a0 storage) as Hlen.
    split; [done|]. split; [simpl; lia|]. split.
    { intros _ ->. simpl in IH2. destruct storage; simpl in *; lia. }
    intros k a. rewrite IH4, (elem_of_setitem k0 a0 storage k a Hnodup). split.
    + intros [[[[-> ->]|[Hne Hin]] Hnone]|(before & f & after & -> & Hf & Ha & Hlater)].
      * right. by exists [], file, files.
      * left. split; [done|]. intros f [->|Hf]%elem_of_cons; [congruence|by apply Hnone].
      * right. by exists (file :: before), f, after.
    + intros [[Hin Hnone]|(before & f & after & Hfiles & Hf & Ha & Hlater)].
      * left. split; [|intros f Hf; apply Hnone; by right].
        right. split; [|done]. intros ->. by apply (Hnone file); [left|].
      * destruct before as [|file' before]; injection Hfiles as <- ->.
        -- left. split; [|done]. left. split; congruence.
        -- right. by exists before, f, after.
Qed.

Lemma init_Ok (path : Path.t) (manager : CorpusManager.t) :
  CorpusManager.__init__ get_article_id_from_filepath from_raw path = Ok manager ->
  CorpusManager._validate_dataset
    {| CorpusManager.path_to_raw_txt_data := path; CorpusManager._storage := [] |}
  = Ok tt
  ∧ CorpusManager.path_to_raw_txt_data manager = path
  ∧ CorpusManager.scan_files get_article_id_from_filepath from_raw
      (Path.glob path underscore_raw_txt) []
    = Ok (CorpusManager.get_articles manager).
Proof.
  unfold CorpusManager.__init__, CorpusManager._scan_dataset.
  destruct (CorpusManager._validate_dataset _) as [[]|]; simpl; [|done].
  destruct (CorpusManager.scan_files _ _ _ _); simpl; [|done].
  by intros [= <-].
Qed.

(** X5: after a successful construction the storage has no key twice, and
    it holds the pair (k, a) exactly when some raw file has the ID k, a is
    the article read from the last such file in the listing. *)
Theorem storage_holds_last_article_of_each_id (path : Path.t) (manager : CorpusManager.t) :
  CorpusManager.__init__ get_article_id_from_filepath from_raw path = Ok manager ->
  NoDup (Dict.keys (CorpusManager.get_articles manager))
  ∧ ∀ k a, (k, a) ∈ CorpusManager.get_articles manager ↔
       ∃ before file after,
         Path.glob path underscore_raw_txt = before ++ file :: after
         ∧ get_article_id_from_filepath file = Ok k
         ∧ from_raw file = Ok a
         ∧ ∀ later, later ∈ after -> get_article_id_from_filepath later ≠ Ok k.
Proof.
  intros (_ & _ & Hscan)%init_Ok.
  destruct (scan_files_storage _ _ _ Hscan (NoDup_nil_2)) as (Hnodup & _ & _ & Hin).
  split; [done|]. intros k a. rewrite Hin. split; [|by right].
  by intros [[?%elem_of_nil _]|?].
Qed.

(** X6: a CorpusManager that was constructed holds at least one article and
    at most nine, whatever the directory and the collaborators. *)
Theorem manager_holds_one_to_nine_articles (path : Path.t) (manager : CorpusManager.t) :
  CorpusManager.__init__ get_article_id_from_filepath from_raw path = Ok manager ->
  (1 <= length (CorpusManager.get_articles manager) <= 9)%nat.
Proof.
  intros (Hvalid & _ & Hscan)%init_Ok.
  apply accepted_is_small in Hvalid as (_ & Hraw & _). simpl in Hraw.
  destruct (scan_files_storage _ _ _ Hscan (NoDup_nil_2)) as (_ & Hlen & Hne & _).
  simpl in Hlen. split; [|lia].
  destruct (CorpusManager.get_articles manager); [|simpl; lia].
  destruct Hne; [|done]. intros E. rewrite E in Hraw. simpl in Hraw. lia.
Qed.

Lemma scan_files_distinct (files : list Path.entry) (ids : list Z)
    (articles : list Article.t) (storage : list (Z * Article.t)) :
  comprehension get_article_id_from_filepath files = Ok ids ->
  comprehension from_raw files = Ok articles ->
  NoDup (Dict.keys storage ++ ids) ->
  CorpusManager.scan_files get_article_id_from_filepath from_raw files storage
  = Ok (storage ++ zip ids articles).
Proof.
  revert ids articles storage.
  induction files as [|file files IH]; intros ids articles storage Hids Harts Hnodup.
  - injection Hids as <-. by rewrite app_nil_r.
  - simpl in Hids, Harts. cbn [CorpusManager.scan_files].
    destruct (get_article_id_from_filepath file) as [k|]; simpl in *; [|done].
    destruct (from_raw file) as [a|]; simpl in *; [|done].
    destruct (comprehension get_article_id_from_filepath files) as [ks|]; simpl in *; [|done].
    destruct (comprehension from_raw files) as [arts|]; simpl in *; [|done].
    injection Hids as <-. injection Harts as <-.
    assert (k ∉ Dict.keys storage) as Hk.
    { apply NoDup_app in Hnodup as (_ & Hdisj & _). intros Hin.
      apply (Hdisj k Hin). left. }
    rewrite (setitem_new k a storage Hk), (IH ks arts); try done.
    + by rewrite <-app_assoc.
    + unfold Dict.keys in *. rewrite map_app. simpl.
      by rewrite <-app_assoc.
Qed.

(** X7: when validation accepts the directory and the collaborators read
    every raw file, giving IDs that are all different, the construction
    succeeds and the storage lists each ID with its article in the order
    of the raw files. *)
Theorem distinct_ids_are_stored_in_order
    (path : Path.t) (ids : list Z) (articles : list Article.t) :
  CorpusManager._validate_dataset
    {| CorpusManager.path_to_raw_txt_data := path; CorpusManager._storage := [] |}
  = Ok tt ->
  comprehension get_article_id_from_filepath (Path.glob path underscore_raw_txt) = Ok ids ->
  comprehension from_raw (Path.glob path underscore_raw_txt) = Ok articles ->
  NoDup ids ->
  CorpusManager.__init__ get_article_id_from_filepath from_raw path
  = Ok {| CorpusManager.path_to_raw_txt_data := path;
          CorpusManager._storage := zip ids articles |}.
Proof.
  intros Hvalid Hids Harts Hnodup.
  unfold CorpusManager.__init__, CorpusManager._scan_dataset. rewrite Hvalid. simpl.
  by rewrite (scan_files_distinct _ ids articles []).
Qed.

End Construction.

(** ** Tokens *)

Section Tokens.

Lemma split_ws_from_tokens (cur s : pystr) :
  Forall (fun c => Py.isspace c = false) cur ->
  Forall (fun token => token ≠ [] ∧ Forall (fun c => Py.isspace c = false) token)
    (Py.split_ws_from cur s).
Proof.
  revert cur. induction s as [|c s IH]; intros cur Hcur; simpl.
  - destruct cur as [|a cur]; constructor; [|constructor].
    split; [|by apply Forall_rev].
    intros E%(f_equal length). rewrite length_rev in E. done.
  - destruct (Py.isspace c) eqn:Ec.
    + destruct cur as [|a cur]; [by apply IH|].
      constructor; [|by apply IH]. split; [|by apply Forall_rev].
      intros E%(f_equal length). rewrite length_rev in E. done.
    + apply IH. by constructor.
Qed.

Lemma concat_split_ws_from (cur s : pystr) :
  concat (Py.split_ws_from cur s)
  = rev cur ++ filter (fun c => Py.isspace c = false) s.
Proof.
  revert cur. induction s as [|c s IH]; intros cur; simpl.
  - destruct cur; simpl; by rewrite ?app_nil_r.
  - rewrite filter_cons. destruct (Py.isspace c) eqn:Ec.
    + rewrite decide_False by done.
      destruct cur as [|a cur]; [by rewrite IH|]. simpl. by rewrite IH.
    + rewrite decide_True by done. rewrite IH. simpl. by rewrite <-app_assoc.
Qed.

Lemma split_ws_from_app (cur token s : pystr) :
  Forall (fun c => Py.isspace c = false) token ->
  Py.split_ws_from cur (token ++ s) = Py.split_ws_from (rev token ++ cur) s.
Proof.
  intros Htoken. revert cur.
  induction Htoken as [|c token Hc _ IH]; intros cur; [done|].
  simpl. rewrite Hc, IH. by rewrite <-app_assoc.
Qed.

(** Splitting the single-space join of non-empty strings without white
    space gives the strings back. *)
Lemma split_join (tokens : list pystr) :
  Forall (fun token => token ≠ [] ∧ Forall (fun c => Py.isspace c = false) token) tokens ->
  Py.split (Py.join [32%N] tokens) = tokens.
Proof.
  unfold Py.split. induction 1 as [|token tokens [Hne Htoken] _ IH]; [done|].
  assert (rev token ≠ []) as Hrev.
  { intros E%(f_equal length). rewrite length_rev in E. by destruct token. }
  destruct tokens as [|next tokens].
  - simpl. rewrite <-(app_nil_r token) at 1.
    rewrite split_ws_from_app, app_nil_r by done. simpl.
    destruct (rev token) eqn:E; [done|]. by rewrite <-E, rev_involutive.
  - change (Py.join [32%N] (token :: next :: tokens))
      with (token ++ 32%N :: Py.join [32%N] (next :: tokens)).
    rewrite split_ws_from_app, app_nil_r by done.
    cbn [Py.split_ws_from]. change (Py.isspace 32) with true. cbv iota.
    destruct (rev token) eqn:E; [done|]. by rewrite <-E, rev_involutive, IH.
Qed.

Variable split_by_sentence : pystr -> list pystr.

Lemma process_first_sentence (text first : pystr) (others : list pystr) :
  split_by_sentence text = first :: others ->
  ∃ sentence,
    MorphologicalAnalysisPipeline._process split_by_sentence text = Some [sentence]
    ∧ ConlluSentence._text sentence = first
    ∧ Forall (fun token =>
                ConlluToken._text token ≠ []
                ∧ Forall (fun c => Py.isspace c = false) (ConlluToken._text token))
        (ConlluSentence._tokens sentence)
    ∧ concat (map ConlluToken._text (ConlluSentence._tokens sentence))
      = filter (fun c => Py.isspace c = false) first.
Proof.
  intros Hsplit. unfold MorphologicalAnalysisPipeline._process. rewrite Hsplit.
  destruct (enumerate_cons first others) as [tail ->].
  eexists. split; [done|]. split; [done|]. simpl. rewrite map_map. simpl.
  rewrite map_id. split.
  - apply Forall_map. apply (split_ws_from_tokens [] first). constructor.
  - apply (concat_split_ws_from [] first).
Qed.

(** X8: the tokens of the sentence [_process] returns are never empty and
    hold no white-space character, and together they are the characters of
    the first sentence that are not white space, in order. *)
Theorem process_tokens (text first : pystr) (others : list pystr) :
  split_by_sentence text = first :: others ->
  ∃ sentence,
    MorphologicalAnalysisPipeline._process split_by_sentence text = Some [sentence]
    ∧ ConlluSentence._text sentence = first
    ∧ Forall (fun token =>
                ConlluToken._text token ≠ []
                ∧ Forall (fun c => Py.isspace c = false) (ConlluToken._text token))
        (ConlluSentence._tokens sentence)
    ∧ concat (map ConlluToken._text (ConlluSentence._tokens sentence))
      = filter (fun c => Py.isspace c = false) first.
Proof. apply process_first_sentence. Qed.

End Tokens.

Section CleanedText.

Variable lower : pystr -> pystr.

Lemma space_is_white (s : pystr) :
  Forall (fun c => Py.isspace c = false) s -> 32%N ∉ s.
Proof.
  intros H Hin. by apply (proj1 (Forall_forall _ _) H) in Hin.
Qed.

(** X9: when lower-casing brings in none of the removed characters, the
    cleaned form of a token holds no ASCII punctuation character and none
    of [«], [»], [—], [%]. *)
Theorem get_cleaned_has_no_removed_character (token : ConlluToken.t) :
  (∀ s, Forall (fun c => Spec.is_removed c = false) s ->
        Forall (fun c => Spec.is_removed c = false) (lower s)) ->
  Forall (fun c => Spec.is_removed c = false) (ConlluToken.get_cleaned lower token).1.
Proof.
  intros Hkeeps. unfold ConlluToken.get_cleaned. cbn [fst].
  rewrite translate_removed. apply Hkeeps, Forall_filter.
Qed.

Lemma split_cleaned_sentence (sentence : ConlluSentence.t) :
  Forall (fun token =>
            Forall (fun c => Py.isspace c = false) (ConlluToken.get_cleaned lower token).1)
    (ConlluSentence._tokens sentence) ->
  Py.split (ConlluSentence.get_cleaned_sentence lower sentence).1
  = filter (fun piece => piece ≠ [])
      (map (fun token => (ConlluToken.get_cleaned lower token).1)
         (ConlluSentence._tokens sentence)).
Proof.
  intros Hwhite. unfold ConlluSentence.get_cleaned_sentence.
  rewrite cleaned_tokens_filter. cbn [fst].
  assert (map (fun token => (ConlluToken.get_cleaned lower token).1)
            (ConlluSentence._tokens sentence)
          = map (fun token => Spec.cleaned lower (ConlluToken._text token))
              (ConlluSentence._tokens sentence)) as ->.
  { apply map_ext. intros token. unfold ConlluToken.get_cleaned, Spec.cleaned.
    by rewrite translate_removed. }
  apply split_join, Forall_forall. intros piece [Hne Hin]%list_elem_of_filter.
  split; [done|]. apply list_elem_of_fmap in Hin as [token [-> Hin]].
  apply (proj1 (Forall_forall _ _) Hwhite) in Hin.
  unfold ConlluToken.get_cleaned in Hin. by rewrite translate_removed in Hin.
Qed.

(** X10: when no cleaned form of a token of the sentence holds a white-space
    character, splitting the cleaned sentence on white space gives back the
    non-empty cleaned forms of the tokens, in order. *)
Theorem cleaned_sentence_splits_into_cleaned_tokens (sentence : ConlluSentence.t) :
  Forall (fun token =>
            Forall (fun c => Py.isspace c = false) (ConlluToken.get_cleaned lower token).1)
    (ConlluSentence._tokens sentence) ->
  Py.split (ConlluSentence.get_cleaned_sentence lower sentence).1
  = filter (fun piece => piece ≠ [])
      (map (fun token => (ConlluToken.get_cleaned lower token).1)
         (ConlluSentence._tokens sentence)).
Proof. apply split_cleaned_sentence. Qed.

Variable split_by_sentence : pystr -> list pystr.

(** X11: when lower-casing brings in no white-space character, the cleaned
    form of the sentence [_process] returns has no two consecutive spaces,
    and splitting it on white space gives back the non-empty cleaned forms
    of its tokens. *)
Theorem processed_sentence_cleans_to_spaced_tokens
    (text first : pystr) (others : list pystr) :
  (∀ s, Forall (fun c => Py.isspace c = false) s ->
        Forall (fun c => Py.isspace c = false) (lower s)) ->
  split_by_sentence text = first :: others ->
  ∃ sentence,
    MorphologicalAnalysisPipeline._process split_by_sentence text = Some [sentence]
    ∧ Spec.has_double_space (ConlluSentence.get_cleaned_sentence lower sentence).1 = false
    ∧ Py.split (ConlluSentence.get_cleaned_sentence lower sentence).1
      = filter (fun piece => piece ≠ [])
          (map (fun token => (ConlluToken.get_cleaned lower token).1)
             (ConlluSentence._tokens sentence)).
Proof.
  intros Hlower Hsplit.
  destruct (process_first_sentence split_by_sentence text first others Hsplit)
    as (sentence & Hprocess & _ & Htokens & _).
  exists sentence. split; [done|].
  assert (Forall (fun token =>
                    Forall (fun c => Py.isspace c = false)
                      (ConlluToken.get_cleaned lower token).1)
            (ConlluSentence._tokens sentence)) as Hwhite.
  { eapply Forall_impl; [exact Htokens|]. intros token [_ Htoken].
    unfold ConlluToken.get_cleaned. cbn [fst]. rewrite translate_removed.
    apply Hlower, Forall_forall. intros c [_ Hin]%list_elem_of_filter.
    by apply (proj1 (Forall_forall _ _) Htoken). }
  split; [|by apply split_cleaned_sentence].
  unfold ConlluSentence.get_cleaned_sentence. rewrite cleaned_tokens_filter. cbn [fst].
  apply join_no_double_space, Forall_forall.
  intros piece [Hne Hin]%list_elem_of_filter. split; [done|].
  apply list_elem_of_fmap in Hin as [token [-> Hin]].
  apply (proj1 (Forall_forall _ _) Hwhite) in Hin.
  unfold ConlluToken.get_cleaned in Hin. rewrite translate_removed in Hin.
  by apply space_is_white.
Qed.

End CleanedText.

(** ** Running the pipeline; path errors *)

Section Running.

Variable split_by_sentence : pystr -> list pystr.


End Running.

Section Errors.



End Errors.

Section Sizes.

Lemma raw_id_of_str (file file' : Path.entry) :
  Path.str file = Path.str file' ->
  CorpusManager.raw_id file = CorpusManager.raw_id file'.
Proof. unfold CorpusManager.raw_id. by intros ->. Qed.

Lemma same_names (files files' : list Path.entry) (suffix : pystr) :
  map Path.str files = map Path.str files' ->
  comprehension CorpusManager.raw_id files = comprehension CorpusManager.raw_id files'
  ∧ Forall2 (fun file file' => Path.str file = Path.str file')
      (Path.glob (Fixtures.directory files) suffix)
      (Path.glob (Fixtures.directory files') suffix).
Proof.
  revert files'. induction files as [|file files IH]; intros [|file' files'] Hstr;
    try done.
  injection Hstr as Hfile Hstr. destruct (IH files' Hstr) as [IH1 IH2].
  split.
  - simpl. by rewrite (raw_id_of_str file file' Hfile), IH1.
  - rewrite !glob_cons, Hfile.
    destruct (Py.endswith (Path.str file') suffix); [by constructor|done].
Qed.

(** X14: of the sizes of the files, validation looks at those of the first
    metadata file and of the first raw file listed, and only at whether
    they are zero: two listings with the same path strings that agree on
    this are validated alike. *)
Theorem validation_reads_two_sizes (files files' : list Path.entry) :
  map Path.str files = map Path.str files' ->
  Corpus.first_is_empty (Path.glob (Fixtures.directory files) dot_json)
  = Corpus.first_is_empty (Path.glob (Fixtures.directory files') dot_json) ->
  Corpus.first_is_empty (Path.glob (Fixtures.directory files) underscore_raw_txt)
  = Corpus.first_is_empty (Path.glob (Fixtures.directory files') underscore_raw_txt) ->
  CorpusManager._validate_dataset (Fixtures.manager files)
  = CorpusManager._validate_dataset (Fixtures.manager files').
Proof.
  intros Hstr Hmeta Hraw.
  destruct (same_names files files' dot_json Hstr) as [Hids Hmetas].
  destruct (same_names files files' underscore_raw_txt Hstr) as [_ Hraws].
  unfold CorpusManager._validate_dataset. simpl. rewrite !glob_all. simpl.
  rewrite Hids, (Forall2_length _ _ _ Hmetas), (Forall2_length _ _ _ Hraws).
  destruct (comprehension CorpusManager.raw_id files') as [ids|]; simpl; [|done].
  destruct (Py.index_last (Py.sorted ids)) as [last_id|]; simpl; [|done].
  destruct (_ || _); [done|].
  unfold Corpus.first_is_empty in Hmeta, Hraw.
  destruct Hmetas as [|m m' ms ms' _ _], Hraws as [|r r' rs rs' _ _];
    simplify_eq/=; try done.
  - by rewrite Hmeta.
  - by rewrite Hmeta, Hraw.
Qed.

End Sizes.

(** ** Instances of the properties above *)

Lemma lower_char_keeps_white_free (c : N) :
  Py.isspace c = false -> Py.isspace (Fixtures.lower_char c) = false.
Proof.
  destruct (lower_char_cases c) as [[? E]|[[? E]|[[? E]|(? & ? & E)]]];
    rewrite E; [| | |done]; intros _; unfold Py.isspace; split_comparisons;
    (done || lia).
Qed.

Lemma fixture_lower_keeps_white_free (s : pystr) :
  Forall (fun c => Py.isspace c = false) s ->
  Forall (fun c => Py.isspace c = false) (Fixtures.lower s).
Proof.
  unfold Fixtures.lower. intros H. apply Forall_map.
  eapply Forall_impl; [exact H|]. apply lower_char_keeps_white_free.
Qed.

(** The first entry of a directory [data_set]: the ID is read from the [a]
    of [data], and int() raises ValueError. *)
Lemma raw_id_reads_before_first_underscore_witness :
  (underscore ∉ Fixtures.lit "dat")
  ∧ 97%N ≠ underscore
  ∧ CorpusManager.raw_id Samples.in_data_set = Raise ValueError.
Proof.
  assert (underscore ∉ Fixtures.lit "dat") as Hp by in_list.
  assert (97%N ≠ underscore) as Hc by done.
  split; [exact Hp|]. split; [exact Hc|].
  exact (proj1 (raw_id_reads_before_first_underscore Samples.in_data_set
                  (Fixtures.lit "dat") (Fixtures.lit "set/1_raw.txt") 97%N Hp Hc)
           eq_refl).
Defined.

Lemma accepted_corpus_is_small_witness :
  CorpusManager._validate_dataset (Fixtures.manager Samples.shuffled_three) = Ok tt
  ∧ (length Samples.shuffled_three <= 18)%nat
  ∧ (1 <= length (Path.glob (Fixtures.directory Samples.shuffled_three)
                    underscore_raw_txt) <= 9)%nat
  ∧ length (Path.glob (Fixtures.directory Samples.shuffled_three) dot_json)
    = length (Path.glob (Fixtures.directory Samples.shuffled_three) underscore_raw_txt).
Proof.
  assert (CorpusManager._validate_dataset (Fixtures.manager Samples.shuffled_three)
          = Ok tt) as Hvalid by (vm_compute; reflexivity).
  split; [exact Hvalid|].
  exact (accepted_corpus_is_small (Fixtures.manager Samples.shuffled_three) Hvalid).
Defined.

Lemma accepted_in_any_order_witness :
  (Fixtures.first_articles 3 ≡ₚ Samples.shuffled_three)
  ∧ Forall (fun file => Path.st_size file ≠ 0) (Fixtures.first_articles 3)
  ∧ CorpusManager._validate_dataset (Fixtures.manager (Fixtures.first_articles 3)) = Ok tt
  ∧ CorpusManager._validate_dataset (Fixtures.manager Samples.shuffled_three) = Ok tt.
Proof.
  assert (Fixtures.first_articles 3 ≡ₚ Samples.shuffled_three) as Hperm
    by (apply (bool_decide_unpack _); vm_compute; exact I).
  assert (Forall (fun file => Path.st_size file ≠ 0) (Fixtures.first_articles 3))
    as Hsizes by (apply (bool_decide_unpack _); vm_compute; exact I).
  assert (CorpusManager._validate_dataset (Fixtures.manager (Fixtures.first_articles 3))
          = Ok tt) as Hvalid by (vm_compute; reflexivity).
  split; [exact Hperm|]. split; [exact Hsizes|]. split; [exact Hvalid|].
  exact (accepted_in_any_order _ _ Hperm Hsizes Hvalid).
Defined.

Lemma single_digit_corpus_validated_witness :
  (underscore ∉ Samples.dir)
  ∧ Forall (fun d => 0 <= d <= 9) [3; 1; 2]
  ∧ [3; 1; 2] ≠ []
  ∧ (map Path.str Samples.shuffled_three ≡ₚ Corpus.names Samples.dir [3; 1; 2])
  ∧ Forall (fun file => Path.st_size file ≠ 0) Samples.shuffled_three
  ∧ CorpusManager._validate_dataset (Fixtures.manager Samples.shuffled_three) = Ok tt.
Proof.
  assert (underscore ∉ Samples.dir) as Hdir by in_list.
  assert (Forall (fun d => 0 <= d <= 9) [3; 1; 2]) as Hds by (repeat constructor; lia).
  assert ([3; 1; 2] ≠ @nil Z) as Hne by done.
  assert (map Path.str Samples.shuffled_three ≡ₚ Corpus.names Samples.dir [3; 1; 2])
    as Hperm by (apply (bool_decide_unpack _); vm_compute; exact I).
  assert (Forall (fun file => Path.st_size file ≠ 0) Samples.shuffled_three)
    as Hsizes by (apply (bool_decide_unpack _); vm_compute; exact I).
  do 5 (split; [done|]).
  exact (single_digit_corpus_validated Samples.dir [3; 1; 2] Samples.shuffled_three
           Hdir Hds Hne Hperm Hsizes).
Defined.

(** The raw files [1_raw.txt] and [01_raw.txt] both have the ID 1: the
    storage holds one article, read from the second of them. *)
Lemma storage_holds_last_article_of_each_id_witness :
  ∃ manager,
    CorpusManager.__init__ Fixtures.id_of_file Samples.read_size
      (Fixtures.directory Samples.repeated_id) = Ok manager
    ∧ Dict.keys (CorpusManager.get_articles manager) = [1]
    ∧ map Article.text (Dict.values (CorpusManager.get_articles manager)) = [[51%N]]
    ∧ NoDup (Dict.keys (CorpusManager.get_articles manager))
    ∧ ∀ k a, (k, a) ∈ CorpusManager.get_articles manager ↔
         ∃ before file after,
           Path.glob (Fixtures.directory Samples.repeated_id) underscore_raw_txt
           = before ++ file :: after
           ∧ Fixtures.id_of_file file = Ok k
           ∧ Samples.read_size file = Ok a
           ∧ ∀ later, later ∈ after -> Fixtures.id_of_file later ≠ Ok k.
Proof.
  eexists. split; [vm_compute; reflexivity|].
  split; [reflexivity|]. split; [reflexivity|].
  exact (storage_holds_last_article_of_each_id Fixtures.id_of_file Samples.read_size
           (Fixtures.directory Samples.repeated_id) _ eq_refl).
Defined.

Lemma manager_holds_one_to_nine_articles_witness :
  ∃ manager,
    CorpusManager.__init__ Fixtures.id_of_file Fixtures.read_raw
      (Fixtures.directory Samples.shuffled_three) = Ok manager
    ∧ (1 <= length (CorpusManager.get_articles manager) <= 9)%nat.
Proof.
  eexists. split; [vm_compute; reflexivity|].
  exact (manager_holds_one_to_nine_articles Fixtures.id_of_file Fixtures.read_raw
           (Fixtures.directory Samples.shuffled_three) _ eq_refl).
Defined.

Lemma distinct_ids_are_stored_in_order_witness :
  ∃ ids articles,
    CorpusManager._validate_dataset
      {| CorpusManager.path_to_raw_txt_data := Fixtures.directory Samples.shuffled_three;
         CorpusManager._storage := [] |} = Ok tt
    ∧ comprehension Fixtures.id_of_file
        (Path.glob (Fixtures.directory Samples.shuffled_three) underscore_raw_txt) = Ok ids
    ∧ comprehension Fixtures.read_raw
        (Path.glob (Fixtures.directory Samples.shuffled_three) underscore_raw_txt)
      = Ok articles
    ∧ NoDup ids
    ∧ ids = [1; 3; 2]
    ∧ CorpusManager.__init__ Fixtures.id_of_file Fixtures.read_raw
        (Fixtures.directory Samples.shuffled_three)
      = Ok {| CorpusManager.path_to_raw_txt_data := Fixtures.directory Samples.shuffled_three;
              CorpusManager._storage := zip ids articles |}.
Proof.
  assert (NoDup [1; 3; 2]) as Hnodup
    by (apply (bool_decide_unpack _); vm_compute; exact I).
  eexists [1; 3; 2], _.
  split; [vm_compute; reflexivity|]. split; [vm_compute; reflexivity|].
  split; [vm_compute; reflexivity|]. split; [exact Hnodup|]. split; [reflexivity|].
  exact (distinct_ids_are_stored_in_order Fixtures.id_of_file Fixtures.read_raw
           (Fixtures.directory Samples.shuffled_three) [1; 3; 2] _
           eq_refl eq_refl eq_refl Hnodup).
Defined.

Lemma process_tokens_witness :
  Fixtures.split_sentences Fixtures.two_sentences
  = [Fixtures.lit "Mama myla ramu."; Fixtures.lit "Rama byla chistoj."]
  ∧ ∃ sentence,
      MorphologicalAnalysisPipeline._process Fixtures.split_sentences
        Fixtures.two_sentences = Some [sentence]
      ∧ ConlluSentence._text sentence = Fixtures.lit "Mama myla ramu."
      ∧ Forall (fun token =>
                  ConlluToken._text token ≠ []
                  ∧ Forall (fun c => Py.isspace c = false) (ConlluToken._text token))
          (ConlluSentence._tokens sentence)
      ∧ concat (map ConlluToken._text (ConlluSentence._tokens sentence))
        = filter (fun c => Py.isspace c = false) (Fixtures.lit "Mama myla ramu.").
Proof.
  assert (Fixtures.split_sentences Fixtures.two_sentences
          = [Fixtures.lit "Mama myla ramu."; Fixtures.lit "Rama byla chistoj."])
    as Hsplit by (vm_compute; reflexivity).
  split; [exact Hsplit|].
  exact (process_tokens Fixtures.split_sentences Fixtures.two_sentences _ _ Hsplit).
Defined.

Lemma get_cleaned_has_no_removed_character_witness :
  (∀ s, Forall (fun c => Spec.is_removed c = false) s ->
        Forall (fun c => Spec.is_removed c = false) (Fixtures.lower s))
  ∧ Forall (fun c => Spec.is_removed c = false)
      (ConlluToken.get_cleaned Fixtures.lower (ConlluToken.__init__ Fixtures.davajte)).1.
Proof.
  split; [exact fixture_lower_keeps_clean|].
  exact (get_cleaned_has_no_removed_character Fixtures.lower
           (ConlluToken.__init__ Fixtures.davajte) fixture_lower_keeps_clean).
Defined.

Lemma cleaned_sentence_splits_into_cleaned_tokens_witness :
  Forall (fun token =>
            Forall (fun c => Py.isspace c = false)
              (ConlluToken.get_cleaned Fixtures.lower token).1)
    (ConlluSentence._tokens Fixtures.mama_sentence)
  ∧ Py.split (ConlluSentence.get_cleaned_sentence Fixtures.lower Fixtures.mama_sentence).1
    = [Fixtures.lit "mama"; Fixtures.lit "myla"].
Proof.
  assert (Forall (fun token =>
                    Forall (fun c => Py.isspace c = false)
                      (ConlluToken.get_cleaned Fixtures.lower token).1)
            (ConlluSentence._tokens Fixtures.mama_sentence)) as Hwhite.
  { apply (bool_decide_unpack _). vm_compute. exact I. }
  split; [exact Hwhite|].
  etrans; [exact (cleaned_sentence_splits_into_cleaned_tokens Fixtures.lower
                    Fixtures.mama_sentence Hwhite)|].
  vm_compute. reflexivity.
Defined.

Lemma processed_sentence_cleans_to_spaced_tokens_witness :
  (∀ s, Forall (fun c => Py.isspace c = false) s ->
        Forall (fun c => Py.isspace c = false) (Fixtures.lower s))
  ∧ Fixtures.split_sentences Fixtures.two_sentences
    = [Fixtures.lit "Mama myla ramu."; Fixtures.lit "Rama byla chistoj."]
  ∧ ∃ sentence,
      MorphologicalAnalysisPipeline._process Fixtures.split_sentences
        Fixtures.two_sentences = Some [sentence]
      ∧ Spec.has_double_space
          (ConlluSentence.get_cleaned_sentence Fixtures.lower sentence).1 = false
      ∧ Py.split (ConlluSentence.get_cleaned_sentence Fixtures.lower sentence).1
        = filter (fun piece => piece ≠ [])
            (map (fun token => (ConlluToken.get_cleaned Fixtures.lower token).1)
               (ConlluSentence._tokens sentence)).
Proof.
  assert (Fixtures.split_sentences Fixtures.two_sentences
          = [Fixtures.lit "Mama myla ramu."; Fixtures.lit "Rama byla chistoj."])
    as Hsplit by (vm_compute; reflexivity).
  split; [exact fixture_lower_keeps_white_free|]. split; [exact Hsplit|].
  exact (processed_sentence_cleans_to_spaced_tokens Fixtures.lower
           Fixtures.split_sentences Fixtures.two_sentences _ _
           fixture_lower_keeps_white_free Hsplit).
Defined.

(** The listing with the empty second raw file is validated like the one
    without an empty file. *)
Lemma validation_reads_two_sizes_witness :
  map Path.str (Fixtures.first_articles 2) = map Path.str Fixtures.second_raw_empty
  ∧ CorpusManager._validate_dataset (Fixtures.manager (Fixtures.first_articles 2))
    = CorpusManager._validate_dataset (Fixtures.manager Fixtures.second_raw_empty).
Proof.
  assert (map Path.str (Fixtures.first_articles 2)
          = map Path.str Fixtures.second_raw_empty) as Hstr by (vm_compute; reflexivity).
  split; [exact Hstr|].
  exact (validation_reads_two_sizes (Fixtures.first_articles 2)
           Fixtures.second_raw_empty Hstr eq_refl eq_refl).
Defined.
